(** * MAT time-series importer (tvb.adapters.uploaders.mat_timeseries_importer)

    A shallow embedding of [MatTimeSeriesImporter.launch] and of the two
    builders [create_region_ts] / [create_eeg_ts], together with the parts
    of numpy (shape, [.T], basic indexing, [newaxis], [r_]) and of the
    H5 storage layer that the importer drives.

    Conventions:
    - Python floats are modelled as rationals ([Q]); nothing below depends
      on rounding, only on which value flows where.
    - a raised exception is the left injection of a sum, a returned value
      the right one; the importer runs in a state-and-exception monad whose
      state holds the H5 containers on disk, the logger output and the
      number of identifiers drawn so far. *)

From Stdlib Require Import ZArith QArith String Ascii List Lia.
From stdpp Require Import base option list strings pretty gmap.

Local Close Scope Q_scope.
Local Open Scope string_scope.
Local Open Scope list_scope.
Local Open Scope stdpp_scope.
Local Open Scope nat_scope.

(** ** Exceptions *)

Inductive exn : Type :=
| ParseException (msg : string)
| LaunchException (arg : exn_arg)
| IndexError (msg : string)
| ValueError (msg : string)
| AttributeError (msg : string)
| KeyError (msg : string)
with exn_arg : Type :=
| Message (s : string)
| Wrapped (ex : exn).

Definition is_LaunchException (e : exn) : bool :=
  match e with LaunchException _ => true | _ => false end.

Definition is_ParseException (e : exn) : bool :=
  match e with ParseException _ => true | _ => false end.

(** ** numpy arrays

    An array is its shape and its elements in row-major (C) order. *)

Record ndarray : Type := mk_ndarray { shape : list nat; flat : list Q }.

Definition ndim (a : ndarray) : nat := length (shape a).

Definition size_of (shp : list nat) : nat := fold_right Nat.mul 1 shp.

Definition well_formed (a : ndarray) : Prop :=
  length (flat a) = size_of (shape a).

(** Row-major position of a multi-index. *)
Fixpoint offset_from (acc : nat) (shp idx : list nat) : nat :=
  match shp, idx with
  | n :: shp', i :: idx' => offset_from (acc * n + i) shp' idx'
  | _, _ => acc
  end.

Definition item (a : ndarray) (idx : list nat) : Q :=
  nth (offset_from 0 (shape a) idx) (flat a) 0%Q.

(** What one position of an index expression does to the axes: pick one
    entry of a source axis (the axis disappears), keep the listed entries
    of a source axis, or make a new axis of length one. *)
Inductive axis_sel : Type :=
| SPick (i : nat)
| SRange (js : list nat)
| SNew.

Fixpoint sel_shape (sels : list axis_sel) : list nat :=
  match sels with
  | [] => []
  | SPick _ :: r => sel_shape r
  | SRange js :: r => length js :: sel_shape r
  | SNew :: r => 1 :: sel_shape r
  end.

(** Source multi-indices of the selected elements, in the row-major order
    of the result. *)
Fixpoint sel_multi (sels : list axis_sel) : list (list nat) :=
  match sels with
  | [] => [[]]
  | SPick i :: r => map (cons i) (sel_multi r)
  | SRange js :: r => flat_map (fun j => map (cons j) (sel_multi r)) js
  | SNew :: r => sel_multi r
  end.

Definition view (a : ndarray) (sels : list axis_sel) : ndarray :=
  {| shape := sel_shape sels; flat := map (item a) (sel_multi sels) |}.

Definition all_indices (shp : list nat) : list (list nat) :=
  sel_multi (map (fun n => SRange (seq 0 n)) shp).

(** [a.T]: the axes in reverse order. *)
Definition ndarray_T (a : ndarray) : ndarray :=
  {| shape := rev (shape a);
     flat := map (fun idx => item a (rev idx)) (all_indices (rev (shape a))) |}.

(** [numpy.r_[:n]] *)
Definition r_ (n : nat) : ndarray :=
  {| shape := [n]; flat := map (fun i => inject_Z (Z.of_nat i)) (seq 0 n) |}.

(** [a * x] for a scalar [x] *)
Definition ndarray_mul (a : ndarray) (x : Q) : ndarray :=
  {| shape := shape a; flat := map (fun y => (y * x)%Q) (flat a) |}.

(** ** Index expressions *)

Inductive index_item : Type :=
| IInt (i : Z)
| ISlice (start stop step : option Z)
| IEllipsis
| INewAxis.

Definition full_slice : index_item := ISlice None None None.

(** [slice(start, stop, step).indices(n)] followed by the enumeration of
    the selected positions. *)
Definition clip_bound (lower upper n : Z) (b : Z) : Z :=
  if (b <? 0)%Z then Z.max (b + n) lower else Z.min b upper.

Definition slice_positions (start stop step : option Z) (n : nat) : exn + list nat :=
  let st := default 1%Z step in
  if (st =? 0)%Z then inl (ValueError "slice step cannot be zero")
  else
    let len := Z.of_nat n in
    let lower := if (st <? 0)%Z then (-1)%Z else 0%Z in
    let upper := if (st <? 0)%Z then (len - 1)%Z else len in
    let s := match start with
             | None => if (st <? 0)%Z then upper else lower
             | Some b => clip_bound lower upper len b
             end in
    let e := match stop with
             | None => if (st <? 0)%Z then lower else upper
             | Some b => clip_bound lower upper len b
             end in
    let count :=
      if (st <? 0)%Z
      then (if (e <? s)%Z then (s - e - 1) / (- st) + 1 else 0)%Z
      else (if (s <? e)%Z then (e - s - 1) / st + 1 else 0)%Z in
    inr (map (fun k => Z.to_nat (s + Z.of_nat k * st)) (seq 0 (Z.to_nat count))).

Definition int_position (i : Z) (n : nat) : exn + nat :=
  let j := if (i <? 0)%Z then (i + Z.of_nat n)%Z else i in
  if ((0 <=? j) && (j <? Z.of_nat n))%Z then inr (Z.to_nat j)
  else inl (IndexError "index is out of bounds for axis").

Definition consumes (it : index_item) : bool :=
  match it with IInt _ | ISlice _ _ _ => true | _ => false end.

Definition is_ellipsis (it : index_item) : bool :=
  match it with IEllipsis => true | _ => false end.

(** Replace the ellipsis by as many full slices as there are axes left
    over; without an ellipsis the missing axes are taken whole at the end. *)
Definition expand_index (nd : nat) (items : list index_item) : exn + list index_item :=
  let used := length (List.filter consumes items) in
  let dots := length (List.filter is_ellipsis items) in
  if 1 <? dots then inl (IndexError "an index can only have a single ellipsis ('...')")
  else if nd <? used then inl (IndexError "too many indices for array")
  else
    let fill := replicate (nd - used) full_slice in
    if dots =? 0 then inr (items ++ fill)
    else inr (flat_map (fun it => if is_ellipsis it then fill else [it]) items).

Fixpoint resolve_index (items : list index_item) (shp : list nat) : exn + list axis_sel :=
  match items with
  | [] => inr []
  | INewAxis :: r =>
      match resolve_index r shp with
      | inl e => inl e
      | inr sels => inr (SNew :: sels)
      end
  | IEllipsis :: r => resolve_index r shp
  | IInt i :: r =>
      match shp with
      | [] => inl (IndexError "too many indices for array")
      | n :: shp' =>
          match int_position i n with
          | inl e => inl e
          | inr j =>
              match resolve_index r shp' with
              | inl e => inl e
              | inr sels => inr (SPick j :: sels)
              end
          end
      end
  | ISlice a b c :: r =>
      match shp with
      | [] => inl (IndexError "too many indices for array")
      | n :: shp' =>
          match slice_positions a b c n with
          | inl e => inl e
          | inr js =>
              match resolve_index r shp' with
              | inl e => inl e
              | inr sels => inr (SRange js :: sels)
              end
          end
      end
  end.

(** [a[items]] for basic (non-fancy) indexing. *)
Definition getitem (a : ndarray) (items : list index_item) : exn + ndarray :=
  match expand_index (ndim a) items with
  | inl e => inl e
  | inr items' =>
      match resolve_index items' (shape a) with
      | inl e => inl e
      | inr sels => inr (view a sels)
      end
  end.

(** ** Slice expressions

    The importer calls [parse_slice] of
    [tvb.core.adapters.arguments_serialisation], whose source is missing;
    the parser below follows the contract the specification gives for it. *)

(** [s.split(sep)] *)
Fixpoint split_on (sep : ascii) (s : string) : list string :=
  match s with
  | EmptyString => [EmptyString]
  | String c s' =>
      if Ascii.eqb c sep then EmptyString :: split_on sep s'
      else match split_on sep s' with
           | [] => [String c EmptyString]
           | w :: ws => String c w :: ws
           end
  end.

Fixpoint remove_spaces (s : string) : string :=
  match s with
  | EmptyString => EmptyString
  | String c s' => if Ascii.eqb c " " then remove_spaces s' else String c (remove_spaces s')
  end.

Definition digit_of (c : ascii) : option Z :=
  let n := nat_of_ascii c in
  if (48 <=? n) && (n <=? 57) then Some (Z.of_nat (n - 48)) else None.

Fixpoint parse_digits (acc : Z) (s : string) : option Z :=
  match s with
  | EmptyString => Some acc
  | String c s' =>
      match digit_of c with
      | Some d => parse_digits (10 * acc + d)%Z s'
      | None => None
      end
  end.

Definition parse_int (s : string) : option Z :=
  match s with
  | EmptyString => None
  | String c s' =>
      if Ascii.eqb c "-"
      then (if String.eqb s' EmptyString then None else Z.opp <$> parse_digits 0%Z s')
      else parse_digits 0%Z s
  end.

(** One bound of a range: empty means "not given". *)
Definition parse_bound (s : string) : option (option Z) :=
  if String.eqb s EmptyString then Some None else Some <$> parse_int s.

Definition malformed (s : string) : exn :=
  ParseException ("invalid slice: " +:+ s).

(** Modelled from the spec: one comma-separated position of a slice
    expression ([parse_slice] itself is missing from the sources): the
    ellipsis, a single index, or a range [lo:hi] or [lo:hi:step] whose
    parts may be left out; anything else is malformed. *)
Definition parse_component (s : string) : exn + index_item :=
  if String.eqb s "..." then inr IEllipsis
  else
    match split_on ":" s with
    | [a] =>
        match parse_int a with
        | Some i => inr (IInt i)
        | None => inl (malformed s)
        end
    | [a; b] =>
        match parse_bound a, parse_bound b with
        | Some lo, Some hi => inr (ISlice lo hi None)
        | _, _ => inl (malformed s)
        end
    | [a; b; c] =>
        match parse_bound a, parse_bound b, parse_bound c with
        | Some lo, Some hi, Some st => inr (ISlice lo hi st)
        | _, _, _ => inl (malformed s)
        end
    | _ => inl (malformed s)
    end.

Fixpoint parse_components (parts : list string) : exn + list index_item :=
  match parts with
  | [] => inr []
  | p :: r =>
      match parse_component p with
      | inl e => inl e
      | inr it =>
          match parse_components r with
          | inl e => inl e
          | inr its => inr (it :: its)
          end
      end
  end.

(** Modelled from the spec: [tvb.core.adapters.arguments_serialisation.parse_slice]
    is imported by the importer but its source is missing.  Following the
    contract of the slice expression parser: the input uses numpy slice
    syntax; single indices, ranges with an optional step, the ellipsis and
    comma-separated multi-axis specifications are understood; the empty
    string means "no slicing"; malformed input fails with a parse error. *)
Definition parse_slice (slice_string : string) : exn + list index_item :=
  let s := remove_spaces slice_string in
  if String.eqb s EmptyString then inr [] else parse_components (split_on "," s).

(** ** Values stored as H5 attributes *)

Inductive value : Type :=
| VNone
| VBool (b : bool)
| VInt (z : Z)
| VFloat (q : Q)
| VStr (s : string)
| VStrings (l : list string)
| VLabels (d : list (string * list string)).

Definition of_option {A} (f : A -> value) (o : option A) : value :=
  match o with Some a => f a | None => VNone end.

(** ** Identifiers, topologies, time series objects, index records *)

(** Identifiers are opaque; [uuid.UUID] applied to the hex form of an
    identifier is a change of representation and is not modelled apart. *)
Definition Gid : Type := string.

Record connectivity : Type := { conn_gid : Gid; number_of_regions : Z }.
Record sensors : Type := { sens_gid : Gid; number_of_sensors : Z }.

Inductive topology : Type :=
| AConnectivity (c : connectivity)
| ASensors (s : sensors).

(** The traited datatype object ([TimeSeriesRegion()] or [TimeSeriesEEG()]). *)
Record TimeSeries : Type := {
  ts_class_name : string;
  ts_title : option string;
  ts_start_time : Q;
  ts_sample_period : Q;
  ts_sample_period_unit : string;
  ts_sample_rate : option Q;
  ts_labels_ordering : list string;
  ts_labels_dimensions : list (string * list string)
}.

Inductive index_class : Type := TimeSeriesRegionIndex | TimeSeriesEEGIndex.

Record TimeSeriesIndex : Type := {
  idx_class : index_class;
  idx_gid : Gid;
  connectivity_gid : option Gid;
  has_surface_mapping : option bool;
  sensors_gid : option Gid;
  title : option string;
  time_series_type : option string;
  sample_period_unit : option string;
  sample_period : option Q;
  sample_rate : option Q;
  labels_dimensions : option string;
  labels_ordering : option string;
  data_ndim : option nat;
  data_length_1d : option nat;
  data_length_2d : option nat;
  data_length_3d : option nat;
  data_length_4d : option nat
}.

(** A freshly constructed index record: only the identifier is set. *)
Definition new_index (c : index_class) (g : Gid) : TimeSeriesIndex :=
  {| idx_class := c; idx_gid := g;
     connectivity_gid := None; has_surface_mapping := None; sensors_gid := None;
     title := None; time_series_type := None; sample_period_unit := None;
     sample_period := None; sample_rate := None;
     labels_dimensions := None; labels_ordering := None;
     data_ndim := None;
     data_length_1d := None; data_length_2d := None;
     data_length_3d := None; data_length_4d := None |}.

(** Modelled from the spec: [tvb.core.neotraits.db.prepare_array_shape_meta]
    is imported by the importer but its source is missing.  The shape
    descriptor is four integers capturing up to four dimensions of the
    persisted shape; with fewer than four dimensions the trailing entries
    stay unset, and a longer shape is cut to four slots. *)
Definition prepare_array_shape_meta (shp : list nat)
  : option nat * option nat * option nat * option nat :=
  (shp !! 0, shp !! 1, shp !! 2, shp !! 3).

(** ** H5 containers and the importer's state *)

Inductive h5_class : Type := TimeSeriesRegionH5 | TimeSeriesEEGH5.

Record H5File : Type := {
  h5_type : h5_class;
  datasets : gmap string ndarray;
  attrs : gmap string value;
  closed : bool
}.

Definition new_h5 (c : h5_class) : H5File :=
  {| h5_type := c; datasets := ∅; attrs := ∅; closed := false |}.

Record State : Type := {
  files : gmap string H5File;
  log : list exn;
  drawn : nat
}.

Definition M (A : Type) : Type := State -> (exn + A) * State.

Definition raise {A} (e : exn) : M A := fun st => (inl e, st).

#[global] Instance M_ret : MRet M := fun A a st => (inr a, st).

#[global] Instance M_bind : MBind M := fun A B k m st =>
  match m st with
  | (inl e, st') => (inl e, st')
  | (inr a, st') => k a st'
  end.

Definition lift {A} (r : exn + A) : M A :=
  match r with inl e => raise e | inr a => mret a end.

(** [try: body except <handled> as ex: handler ex] *)
Definition try_except {A} (body : M A) (handled : exn -> bool) (handler : exn -> M A) : M A :=
  fun st =>
    match body st with
    | (inl e, st') => if handled e then handler e st' else (inl e, st')
    | r => r
    end.

Definition logged (st : State) (ex : exn) : State :=
  {| files := files st; log := log st ++ [ex]; drawn := drawn st |}.

(** [self.log.exception(ex)] *)
Definition log_exception (ex : exn) : M unit :=
  fun st => (inr tt, logged st ex).

(** *** Operations of an H5 handle; a handle is the path of its container. *)

Definition put_file (st : State) (path : string) (f : H5File) : State :=
  {| files := <[path := f]> (files st); log := log st; drawn := drawn st |}.

(** [TimeSeriesRegionH5(path)], [TimeSeriesEEGH5(path)]: the path is built
    from a newly drawn identifier, and the handle stands for a fresh, empty
    container. *)
Definition h5_open (c : h5_class) (path : string) : M string :=
  fun st => (inr path, put_file st path (new_h5 c)).

(** An operation on the container behind a handle.  (The importer only
    uses handles it has just opened, so the container is always there.) *)
Definition with_file {A} (path : string) (f : H5File -> exn + A * H5File) : M A :=
  fun st =>
    match files st !! path with
    | None => (inl (KeyError path), st)
    | Some h =>
        match f h with
        | inl e => (inl e, st)
        | inr (a, h') => (inr a, put_file st path h')
        end
    end.

(** Appending along the first axis, the axis along which the time series
    datasets grow. *)
Definition append_rows (old new : ndarray) : exn + ndarray :=
  match shape old, shape new with
  | n :: r, m :: r' =>
      if decide (r = r')
      then inr {| shape := (n + m) :: r; flat := flat old ++ flat new |}
      else inl (ValueError "shape mismatch on append")
  | _, _ => inl (ValueError "cannot append a scalar")
  end.

Definition set_dataset (f : H5File) (name : string) (a : ndarray) : H5File :=
  {| h5_type := h5_type f; datasets := <[name := a]> (datasets f);
     attrs := attrs f; closed := closed f |}.

Definition set_attr (f : H5File) (name : string) (v : value) : H5File :=
  {| h5_type := h5_type f; datasets := datasets f;
     attrs := <[name := v]> (attrs f); closed := closed f |}.

Definition set_closed (f : H5File) : H5File :=
  {| h5_type := h5_type f; datasets := datasets f; attrs := attrs f; closed := true |}.

Definition write_slice (name : string) (h : string) (partial_result : ndarray) : M unit :=
  with_file h (fun f =>
    match datasets f !! name with
    | None => inr (tt, set_dataset f name partial_result)
    | Some old =>
        match append_rows old partial_result with
        | inl e => inl e
        | inr a => inr (tt, set_dataset f name a)
        end
    end).

Definition write_time_slice : string -> ndarray -> M unit := write_slice "time".
Definition write_data_slice : string -> ndarray -> M unit := write_slice "data".

Definition read_data_shape (h : string) : M (list nat) :=
  with_file h (fun f =>
    match datasets f !! "data" with
    | Some a => inr (shape a, f)
    | None => inl (KeyError "data")
    end).

(** [h.<name>.store(v)] *)
Definition store (h : string) (name : string) (v : value) : M unit :=
  with_file h (fun f => inr (tt, set_attr f name v)).

Definition close (h : string) : M unit :=
  with_file h (fun f => inr (tt, set_closed f)).

(** ** Collaborators

    What the importer receives from the rest of the platform: the
    structured file reader, the source of fresh identifiers, the path
    scheme of the storage layer, the freshly constructed datatype objects
    with their trait defaults, and the JSON serialiser. *)
Class Collaborators : Type := {
  read_nested_mat_file : string -> string -> string -> exn + ndarray;
  uuid4 : nat -> Gid;
  path_for : string -> h5_class -> Gid -> string;
  TimeSeriesRegion : TimeSeries;
  TimeSeriesEEG : TimeSeries;
  json_dumps : value -> string
}.

(** ** The importer *)

Definition TS_REGION : string := "Region".
Definition TS_EEG : string := "EEG".

Record Importer : Type := { tstype : string; storage_path : string }.

(** [class MatTimeSeriesImporter]: [tstype = TS_REGION] *)
Definition MatTimeSeriesImporter (storage : string) : Importer :=
  {| tstype := TS_REGION; storage_path := storage |}.

(** [t[i]] on a tuple *)
Definition tuple_get (t : list nat) (i : nat) : exn + nat :=
  match t !! i with
  | Some x => inr x
  | None => inl (IndexError "tuple index out of range")
  end.

(** [d[k]] on a dict *)
Definition dict_get {V} (d : gmap string V) (k : string) : exn + V :=
  match d !! k with
  | Some v => inr v
  | None => inl (KeyError k)
  end.

(** ["...%d...%d..." % (a, b)] *)
Definition region_mismatch_message (channels : nat) (regions : Z) : string :=
  "Data has " +:+ pretty (Z.of_nat channels) +:+
  " channels but the connectivity has " +:+ pretty regions +:+ " nodes".

Definition sensors_mismatch_message (channels : nat) (count : Z) : string :=
  "Data has " +:+ pretty (Z.of_nat channels) +:+
  " channels but the sensors have " +:+ pretty count.

Definition truthy (s : option string) : bool :=
  match s with
  | Some t => negb (String.eqb t EmptyString)
  | None => false
  end.

Section Importer.
Context `{Collaborators}.

(** Constructing an index record draws a new identifier. *)
Definition fresh_index (c : index_class) : M TimeSeriesIndex :=
  fun st =>
    (inr (new_index c (uuid4 (drawn st))),
     {| files := files st; log := log st; drawn := S (drawn st) |}).

Definition create_region_ts (self : Importer) (data_shape : list nat)
    (connectivity : option topology)
  : M (TimeSeries * TimeSeriesIndex * string) :=
  match connectivity with
  | Some (AConnectivity c) =>
      channels ← lift (tuple_get data_shape 1);
      if negb (number_of_regions c =? Z.of_nat channels)%Z
      then raise (LaunchException
                    (Message (region_mismatch_message channels (number_of_regions c))))
      else
        ts_idx ← fresh_index TimeSeriesRegionIndex;
        let ts_idx :=
          {| idx_class := idx_class ts_idx; idx_gid := idx_gid ts_idx;
             connectivity_gid := Some (conn_gid c);
             has_surface_mapping := Some true;
             sensors_gid := sensors_gid ts_idx;
             title := title ts_idx; time_series_type := time_series_type ts_idx;
             sample_period_unit := sample_period_unit ts_idx;
             sample_period := sample_period ts_idx; sample_rate := sample_rate ts_idx;
             labels_dimensions := labels_dimensions ts_idx;
             labels_ordering := labels_ordering ts_idx;
             data_ndim := data_ndim ts_idx;
             data_length_1d := data_length_1d ts_idx;
             data_length_2d := data_length_2d ts_idx;
             data_length_3d := data_length_3d ts_idx;
             data_length_4d := data_length_4d ts_idx |} in
        let ts_h5_path := path_for (storage_path self) TimeSeriesRegionH5 (idx_gid ts_idx) in
        ts_h5 ← h5_open TimeSeriesRegionH5 ts_h5_path;
        store ts_h5 "connectivity" (VStr (conn_gid c));;
        mret (TimeSeriesRegion, ts_idx, ts_h5)
  | Some (ASensors _) =>
      raise (AttributeError "object has no attribute 'number_of_regions'")
  | None =>
      raise (AttributeError "'NoneType' object has no attribute 'number_of_regions'")
  end.

Definition create_eeg_ts (self : Importer) (data_shape : list nat)
    (sensors : option topology)
  : M (TimeSeries * TimeSeriesIndex * string) :=
  match sensors with
  | Some (ASensors s) =>
      channels ← lift (tuple_get data_shape 1);
      if negb (number_of_sensors s =? Z.of_nat channels)%Z
      then raise (LaunchException
                    (Message (sensors_mismatch_message channels (number_of_sensors s))))
      else
        ts_idx ← fresh_index TimeSeriesEEGIndex;
        let ts_idx :=
          {| idx_class := idx_class ts_idx; idx_gid := idx_gid ts_idx;
             connectivity_gid := connectivity_gid ts_idx;
             has_surface_mapping := has_surface_mapping ts_idx;
             sensors_gid := Some (sens_gid s);
             title := title ts_idx; time_series_type := time_series_type ts_idx;
             sample_period_unit := sample_period_unit ts_idx;
             sample_period := sample_period ts_idx; sample_rate := sample_rate ts_idx;
             labels_dimensions := labels_dimensions ts_idx;
             labels_ordering := labels_ordering ts_idx;
             data_ndim := data_ndim ts_idx;
             data_length_1d := data_length_1d ts_idx;
             data_length_2d := data_length_2d ts_idx;
             data_length_3d := data_length_3d ts_idx;
             data_length_4d := data_length_4d ts_idx |} in
        let ts_h5_path := path_for (storage_path self) TimeSeriesEEGH5 (idx_gid ts_idx) in
        ts_h5 ← h5_open TimeSeriesEEGH5 ts_h5_path;
        store ts_h5 "sensors" (VStr (sens_gid s));;
        mret (TimeSeriesEEG, ts_idx, ts_h5)
  | Some (AConnectivity _) =>
      raise (AttributeError "object has no attribute 'number_of_sensors'")
  | None =>
      raise (AttributeError "'NoneType' object has no attribute 'number_of_sensors'")
  end.

Definition ts_builder
  : gmap string (Importer -> list nat -> option topology ->
                 M (TimeSeries * TimeSeriesIndex * string)) :=
  <[TS_REGION := create_region_ts]> (<[TS_EEG := create_eeg_ts]> ∅).

(** Lines 180-185 of [launch]: read, transpose, slice. *)
Definition load_data (data_file dataset_name structure_path : string)
    (transpose : bool) (slice : option string) : exn + ndarray :=
  match read_nested_mat_file data_file dataset_name structure_path with
  | inl e => inl e
  | inr data =>
      let data := if transpose then ndarray_T data else data in
      if truthy slice
      then match parse_slice (default EmptyString slice) with
           | inl e => inl e
           | inr index => getitem data index
           end
      else inr data
  end.

(** Lines 189-220 of [launch]: fill the datatype object, write the time
    axis and the data, store the metadata, close, fill the index. *)
Definition store_series (data : ndarray) (start_time : Z)
    (ts : TimeSeries) (ts_idx : TimeSeriesIndex) (ts_h5 : string) : M TimeSeriesIndex :=
  let ts :=
    {| ts_class_name := ts_class_name ts; ts_title := ts_title ts;
       ts_start_time := inject_Z start_time;
       ts_sample_period := ts_sample_period ts;
       ts_sample_period_unit := "s";
       ts_sample_rate := ts_sample_rate ts;
       ts_labels_ordering := ts_labels_ordering ts;
       ts_labels_dimensions := ts_labels_dimensions ts |} in
  time_samples ← lift (tuple_get (shape data) 0);
  write_time_slice ts_h5 (ndarray_mul (r_ time_samples) (ts_sample_period ts));;
  canonical ← lift (getitem data [full_slice; INewAxis; full_slice; INewAxis]);
  write_data_slice ts_h5 canonical;;
  data_shape ← read_data_shape ts_h5;
  store ts_h5 "nr_dimensions" (VInt (Z.of_nat (length data_shape)));;
  store ts_h5 "gid" (VStr (idx_gid ts_idx));;
  store ts_h5 "sample_period" (VFloat (ts_sample_period ts));;
  store ts_h5 "sample_period_unit" (VStr (ts_sample_period_unit ts));;
  store ts_h5 "sample_rate" (of_option VFloat (ts_sample_rate ts));;
  store ts_h5 "start_time" (VFloat (ts_start_time ts));;
  store ts_h5 "labels_ordering" (VStrings (ts_labels_ordering ts));;
  store ts_h5 "labels_dimensions" (VLabels (ts_labels_dimensions ts));;
  store ts_h5 "title" (of_option VStr (ts_title ts));;
  close ts_h5;;
  let '(l1, l2, l3, l4) := prepare_array_shape_meta data_shape in
  mret
    {| idx_class := idx_class ts_idx; idx_gid := idx_gid ts_idx;
       connectivity_gid := connectivity_gid ts_idx;
       has_surface_mapping := has_surface_mapping ts_idx;
       sensors_gid := sensors_gid ts_idx;
       title := ts_title ts;
       time_series_type := Some (ts_class_name ts);
       sample_period_unit := Some (ts_sample_period_unit ts);
       sample_period := Some (ts_sample_period ts);
       sample_rate := ts_sample_rate ts;
       labels_dimensions := Some (json_dumps (VLabels (ts_labels_dimensions ts)));
       labels_ordering := Some (json_dumps (VStrings (ts_labels_ordering ts)));
       data_ndim := Some (length data_shape);
       data_length_1d := l1; data_length_2d := l2;
       data_length_3d := l3; data_length_4d := l4 |}.

(** The body of the [try] block of [launch]. *)
Definition launch_body (self : Importer) (data_file dataset_name structure_path : string)
    (transpose : bool) (slice : option string) (sampling_rate : Z)
    (start_time : Z) (tstype_parameters : option topology) : M TimeSeriesIndex :=
  data ← lift (load_data data_file dataset_name structure_path transpose slice);
  builder ← lift (dict_get ts_builder (tstype self));
  '(ts, ts_idx, ts_h5) ← builder self (shape data) tstype_parameters;
  store_series data start_time ts ts_idx ts_h5.

(** [launch]: the [try] block, and the handler that logs a
    [ParseException] and raises a [LaunchException] built from it.  The
    [transactional] decorator is not modelled: the statements below are
    about what the body itself reads and writes. *)
Definition launch (self : Importer) (data_file dataset_name structure_path : string)
    (transpose : bool) (slice : option string) (sampling_rate : Z)
    (start_time : Z) (tstype_parameters : option topology) : M TimeSeriesIndex :=
  try_except
    (launch_body self data_file dataset_name structure_path transpose slice
       sampling_rate start_time tstype_parameters)
    is_ParseException
    (fun ex => log_exception ex;; raise (LaunchException (Wrapped ex))).

End Importer.

(** ** Vocabulary of the statements *)

(** The selection that [data[:, newaxis, :, newaxis]] denotes on an array of
    shape [T :: C :: rest]. *)
Definition canonical_sels (T C : nat) (rest : list nat) : list axis_sel :=
  SRange (seq 0 T) :: SNew :: SRange (seq 0 C) :: SNew
    :: map (fun n => SRange (seq 0 n)) rest.

(** The source multi-index that a selection reads for the result
    multi-index [pos]. *)
Fixpoint sel_source (sels : list axis_sel) (pos : list nat) : list nat :=
  match sels with
  | [] => []
  | SPick i :: r => i :: sel_source r pos
  | SRange js :: r =>
      match pos with
      | p :: pos' => nth p js 0 :: sel_source r pos'
      | [] => []
      end
  | SNew :: r => sel_source r (tl pos)
  end.

(** [pos] is a valid multi-index for the shape [shp]. *)
Definition in_range (pos shp : list nat) : Prop := Forall2 lt pos shp.

(** [sub in s] *)
Fixpoint contains (sub s : string) : bool :=
  String.prefix sub s ||
  match s with
  | EmptyString => false
  | String _ s' => contains sub s'
  end.

(** The container a successful import leaves behind, starting from the
    container [f0] the builder opened. *)
Definition imported_container (f0 : H5File) (data : ndarray) (T C : nat) (rest : list nat)
    (start_time : Z) (ts : TimeSeries) (g : Gid) : H5File :=
  let f := set_dataset f0 "time" (ndarray_mul (r_ T) (ts_sample_period ts)) in
  let f := set_dataset f "data" (view data (canonical_sels T C rest)) in
  let f := set_attr f "nr_dimensions" (VInt (Z.of_nat (4 + length rest))) in
  let f := set_attr f "gid" (VStr g) in
  let f := set_attr f "sample_period" (VFloat (ts_sample_period ts)) in
  let f := set_attr f "sample_period_unit" (VStr "s") in
  let f := set_attr f "sample_rate" (of_option VFloat (ts_sample_rate ts)) in
  let f := set_attr f "start_time" (VFloat (inject_Z start_time)) in
  let f := set_attr f "labels_ordering" (VStrings (ts_labels_ordering ts)) in
  let f := set_attr f "labels_dimensions" (VLabels (ts_labels_dimensions ts)) in
  let f := set_attr f "title" (of_option VStr (ts_title ts)) in
  set_closed f.

(** The index record a successful import returns, from the record
    [ts_idx] the builder made. *)
Definition imported_index `{Collaborators} (ts_idx : TimeSeriesIndex) (T C : nat) (rest : list nat)
    (ts : TimeSeries) : TimeSeriesIndex :=
  {| idx_class := idx_class ts_idx; idx_gid := idx_gid ts_idx;
     connectivity_gid := connectivity_gid ts_idx;
     has_surface_mapping := has_surface_mapping ts_idx;
     sensors_gid := sensors_gid ts_idx;
     title := ts_title ts;
     time_series_type := Some (ts_class_name ts);
     sample_period_unit := Some "s";
     sample_period := Some (ts_sample_period ts);
     sample_rate := ts_sample_rate ts;
     labels_dimensions := Some (json_dumps (VLabels (ts_labels_dimensions ts)));
     labels_ordering := Some (json_dumps (VStrings (ts_labels_ordering ts)));
     data_ndim := Some (4 + length rest);
     data_length_1d := Some T; data_length_2d := Some 1;
     data_length_3d := Some C; data_length_4d := Some 1 |}.

(** The state after one more identifier has been drawn. *)
Definition drew (st : State) : State :=
  {| files := files st; log := log st; drawn := S (drawn st) |}.

(** The index records the two builders hand back. *)
Definition region_index (c : connectivity) (g : Gid) : TimeSeriesIndex :=
  {| idx_class := TimeSeriesRegionIndex; idx_gid := g;
     connectivity_gid := Some (conn_gid c); has_surface_mapping := Some true;
     sensors_gid := None;
     title := None; time_series_type := None; sample_period_unit := None;
     sample_period := None; sample_rate := None;
     labels_dimensions := None; labels_ordering := None;
     data_ndim := None;
     data_length_1d := None; data_length_2d := None;
     data_length_3d := None; data_length_4d := None |}.

Definition eeg_index (s : sensors) (g : Gid) : TimeSeriesIndex :=
  {| idx_class := TimeSeriesEEGIndex; idx_gid := g;
     connectivity_gid := None; has_surface_mapping := None;
     sensors_gid := Some (sens_gid s);
     title := None; time_series_type := None; sample_period_unit := None;
     sample_period := None; sample_rate := None;
     labels_dimensions := None; labels_ordering := None;
     data_ndim := None;
     data_length_1d := None; data_length_2d := None;
     data_length_3d := None; data_length_4d := None |}.

(** The containers the two builders hand back. *)
Definition region_container (c : connectivity) : H5File :=
  set_attr (new_h5 TimeSeriesRegionH5) "connectivity" (VStr (conn_gid c)).

Definition eeg_container (s : sensors) : H5File :=
  set_attr (new_h5 TimeSeriesEEGH5) "sensors" (VStr (sens_gid s)).

(** [accepts self topo C cls ts mk f0]: the builder selected by [self]
    accepts [C] channels for the topology [topo], and then hands back the
    datatype object [ts], the index record [mk g] for the drawn identifier
    [g], and a container of class [cls] with content [f0]. *)
Inductive accepts `{Collaborators} (self : Importer) (topo : option topology) (C : nat)
  : h5_class -> TimeSeries -> (Gid -> TimeSeriesIndex) -> H5File -> Prop :=
| accepts_region (c : connectivity) :
    tstype self = TS_REGION ->
    topo = Some (AConnectivity c) ->
    number_of_regions c = Z.of_nat C ->
    accepts self topo C TimeSeriesRegionH5 TimeSeriesRegion (region_index c)
      (region_container c)
| accepts_eeg (s : sensors) :
    tstype self = TS_EEG ->
    topo = Some (ASensors s) ->
    number_of_sensors s = Z.of_nat C ->
    accepts self topo C TimeSeriesEEGH5 TimeSeriesEEG (eeg_index s)
      (eeg_container s).

(** What a successful [launch] returns and leaves behind. *)
Definition launch_result `{Collaborators} (self : Importer) (data : ndarray) (T C : nat) (rest : list nat)
    (start_time : Z) cls (ts : TimeSeries) (mk : Gid -> TimeSeriesIndex) (f0 : H5File)
    (st : State) : (exn + TimeSeriesIndex) * State :=
  let g := uuid4 (drawn st) in
  (inr (imported_index (mk g) T C rest ts),
   put_file (drew st) (path_for (storage_path self) cls g)
     (imported_container f0 data T C rest start_time ts (idx_gid (mk g)))).

(** ** A concrete platform, for running the importer on examples *)

Definition demo_file (rows cols : nat) : ndarray :=
  {| shape := [rows; cols];
     flat := map (fun k => inject_Z (Z.of_nat k)) (seq 0 (rows * cols)) |}.

Definition demo_reader (data_file dataset_name structure_path : string) : exn + ndarray :=
  if String.eqb dataset_name "ts43" then inr (demo_file 4 3)
  else if String.eqb dataset_name "ts34" then inr (demo_file 3 4)
  else if String.eqb dataset_name "ts34T" then inr (ndarray_T (demo_file 3 4))
  else if String.eqb dataset_name "ts104" then inr (demo_file 10 4)
  else inl (ParseException ("Could not find dataset " +:+ dataset_name)).

Definition demo_ts (name : string) (ordering : list string) : TimeSeries :=
  {| ts_class_name := name; ts_title := None;
     ts_start_time := 0%Q; ts_sample_period := 1%Q;
     ts_sample_period_unit := "ms"; ts_sample_rate := None;
     ts_labels_ordering := ordering; ts_labels_dimensions := [] |}.

Definition quote : string := String (ascii_of_nat 34) EmptyString.

Definition demo_json (v : value) : string :=
  match v with
  | VStrings l => "[" +:+ String.concat ", " (map (fun s : string => quote +:+ s +:+ quote) l) +:+ "]"
  | VLabels [] => "{}"
  | _ => "null"
  end.

Definition demo : Collaborators :=
  {| read_nested_mat_file := demo_reader;
     uuid4 := fun n => "gid" +:+ pretty n;
     path_for := fun folder c g =>
       folder +:+ (match c with
                  | TimeSeriesRegionH5 => "/TimeSeriesRegion_"
                  | TimeSeriesEEGH5 => "/TimeSeriesEEG_"
                  end) +:+ g +:+ ".h5";
     TimeSeriesRegion := demo_ts "TimeSeriesRegion" ["Time"; "State Variable"; "Region"; "Mode"];
     TimeSeriesEEG := demo_ts "TimeSeriesEEG" ["Time"; "1"; "EEG Sensor"; "1"];
     json_dumps := demo_json |}.

Definition empty_state : State := {| files := ∅; log := []; drawn := 0 |}.

Definition demo_conn (n : Z) : connectivity :=
  {| conn_gid := "conn"; number_of_regions := n |}.

Definition demo_connectivity (n : Z) : option topology :=
  Some (AConnectivity (demo_conn n)).

(** The demo importer on the dataset [name], without transposing. *)
Definition demo_launch (name : string) (slice : option string) (sampling_rate : Z)
    (regions : Z) : (exn + TimeSeriesIndex) * State :=
  launch (H := demo) (MatTimeSeriesImporter "proj") "f.mat" name EmptyString
    false slice sampling_rate 0 (demo_connectivity regions) empty_state.

(** ** More importer classes, and the form model *)

(** An importer class whose [tstype] is [TS_EEG], the other key of
    [ts_builder]. *)
Definition eeg_importer (storage : string) : Importer :=
  {| tstype := TS_EEG; storage_path := storage |}.

(** The attribute names under which lines 198-206 of [launch] store. *)
Definition stored_names : list string :=
  ["nr_dimensions"; "gid"; "sample_period"; "sample_period_unit"; "sample_rate";
   "start_time"; "labels_ordering"; "labels_dimensions"; "title"].

(** A declared attribute of a view model: what the declaration says, and
    nothing where it is silent. *)
Record Attr (A : Type) : Type := {
  attr_required : option bool;
  attr_default : option A;
  attr_label : string;
  attr_doc : option string
}.
Arguments attr_required {A} _.
Arguments attr_default {A} _.
Arguments attr_label {A} _.
Arguments attr_doc {A} _.

(** [class MatTimeSeriesImporterModel(ViewModel)] *)
Module MatTimeSeriesImporterModel.

Definition data_file : Attr string :=
  {| attr_required := None; attr_default := None;
     attr_label := "Please select file to import"; attr_doc := None |}.

Definition dataset_name : Attr string :=
  {| attr_required := None; attr_default := None;
     attr_label := "Matlab dataset name";
     attr_doc := Some "Name of the MATLAB dataset where data is stored" |}.

Definition structure_path : Attr string :=
  {| attr_required := Some false; attr_default := Some EmptyString;
     attr_label := "For nested structures enter the field path (separated by .)";
     attr_doc := None |}.

Definition transpose : Attr bool :=
  {| attr_required := Some false; attr_default := Some false;
     attr_label := "Transpose the array. Expected shape is (time, channel)";
     attr_doc := None |}.

Definition slice : Attr string :=
  {| attr_required := Some false; attr_default := Some EmptyString;
     attr_label := "Slice of the array in numpy syntax. Expected shape is (time, channel)";
     attr_doc := None |}.

Definition sampling_rate : Attr Z :=
  {| attr_required := Some false; attr_default := Some 100%Z;
     attr_label := "sampling rate (Hz)"; attr_doc := None |}.

Definition start_time : Attr Z :=
  {| attr_required := None; attr_default := Some 0%Z;
     attr_label := "starting time (ms)"; attr_doc := None |}.

End MatTimeSeriesImporterModel.

(** The defaults in the signature of [launch]. *)
Module launch_defaults.

Definition structure_path : string := EmptyString.
Definition transpose : bool := false.
Definition slice : option string := None.
Definition sampling_rate : Z := 1000%Z.
Definition start_time : Z := 0%Z.
Definition tstype_parameters : option topology := None.

End launch_defaults.

(** More of the concrete platform. *)
Definition demo_sens (n : Z) : sensors :=
  {| sens_gid := "sens"; number_of_sensors := n |}.

Definition demo_eeg_launch (name : string) (slice : option string) (count : Z)
  : (exn + TimeSeriesIndex) * State :=
  launch (H := demo) (eeg_importer "proj") "f.mat" name EmptyString
    false slice 100 0 (Some (ASensors (demo_sens count))) empty_state.

(** A platform whose files hold a three-dimensional array. *)
Definition demo_cube : ndarray :=
  {| shape := [2; 3; 2];
     flat := map (fun k => inject_Z (Z.of_nat k)) (seq 0 12) |}.

Definition demo_nd : Collaborators :=
  {| read_nested_mat_file := fun _ _ _ => inr demo_cube;
     uuid4 := uuid4 (Collaborators := demo);
     path_for := path_for (Collaborators := demo);
     TimeSeriesRegion := TimeSeriesRegion (Collaborators := demo);
     TimeSeriesEEG := TimeSeriesEEG (Collaborators := demo);
     json_dumps := json_dumps (Collaborators := demo) |}.

(** A platform whose reader fails with an exception that is not a
    [ParseException], and an importer with a tag [ts_builder] does not
    know. *)
Definition demo_unreadable : Collaborators :=
  {| read_nested_mat_file := fun _ _ _ => inl (ValueError "Unknown mat file type");
     uuid4 := uuid4 (Collaborators := demo);
     path_for := path_for (Collaborators := demo);
     TimeSeriesRegion := TimeSeriesRegion (Collaborators := demo);
     TimeSeriesEEG := TimeSeriesEEG (Collaborators := demo);
     json_dumps := json_dumps (Collaborators := demo) |}.

Definition meg_importer (storage : string) : Importer :=
  {| tstype := "MEG"; storage_path := storage |}.

(** The array of shape (4, 3) whose row j is column j of [demo_file 3 4]. *)
Definition demo_file_34_T : ndarray :=
  {| shape := [4; 3];
     flat := map inject_Z [0; 4; 8; 1; 5; 9; 2; 6; 10; 3; 7; 11]%Z |}.

(** The checks of the selected builder pass on an array of shape [shp]: the
    tag is one of [ts_builder], the topology is of the kind the builder
    reads, there is a channel axis, and it has the topology's count. *)
Definition passes_checks `{Collaborators} (self : Importer) (topo : option topology)
    (shp : list nat) : Prop :=
  exists C cls ts mk f0, shp !! 1 = Some C /\ accepts self topo C cls ts mk f0.

(** * Properties *)

(** ** numpy indexing *)

Lemma slice_positions_full (n : nat) :
  slice_positions None None None n = inr (seq 0 n).
Proof.
  unfold slice_positions. cbn [default].
  change (1 =? 0)%Z with false. change (1 <? 0)%Z with false. cbv iota.
  f_equal.
  assert (Hc : Z.to_nat (if (0 <? Z.of_nat n)%Z
                         then ((Z.of_nat n - 0 - 1) / 1 + 1)%Z else 0%Z) = n).
  { destruct (Z.ltb_spec 0 (Z.of_nat n)).
    - rewrite Z.div_1_r. lia.
    - lia. }
  rewrite Hc.
  rewrite <- (map_id (seq 0 n)) at 2.
  apply map_ext. intros k. lia.
Qed.

Lemma resolve_index_fill (shp : list nat) :
  resolve_index (replicate (length shp) full_slice) shp
  = inr (map (fun n => SRange (seq 0 n)) shp).
Proof.
  induction shp as [|n shp IH]; [reflexivity|].
  cbn [length replicate]. unfold full_slice at 1. cbn [resolve_index].
  rewrite slice_positions_full. fold full_slice. rewrite IH. reflexivity.
Qed.

Lemma getitem_newaxis (a : ndarray) (T C : nat) (rest : list nat) :
  shape a = T :: C :: rest ->
  getitem a [full_slice; INewAxis; full_slice; INewAxis]
  = inr (view a (canonical_sels T C rest)).
Proof.
  intros Hs. unfold getitem, ndim, expand_index. rewrite Hs.
  cbn [List.filter consumes is_ellipsis full_slice length].
  change (1 <? 0) with false. cbv iota.
  change (S (S (length rest)) <? 2) with false. cbv iota.
  change (0 =? 0) with true. cbv iota.
  replace (S (S (length rest)) - 2) with (length rest) by lia.
  cbn [app]. unfold full_slice at 1 2. cbn [resolve_index].
  rewrite !slice_positions_full. fold full_slice.
  rewrite resolve_index_fill. reflexivity.
Qed.

Lemma sel_shape_whole (shp : list nat) :
  sel_shape (map (fun n => SRange (seq 0 n)) shp) = shp.
Proof.
  induction shp as [|n shp IH]; [reflexivity|].
  cbn [map sel_shape]. rewrite length_seq, IH. reflexivity.
Qed.

Lemma shape_canonical (a : ndarray) (T C : nat) (rest : list nat) :
  shape (view a (canonical_sels T C rest)) = T :: 1 :: C :: 1 :: rest.
Proof.
  unfold view, canonical_sels. cbn [shape sel_shape].
  rewrite !length_seq, sel_shape_whole. reflexivity.
Qed.

(** ** Elements of views and of transposed arrays *)

Lemma length_sel_multi (sels : list axis_sel) :
  length (sel_multi sels) = size_of (sel_shape sels).
Proof.
  induction sels as [|[i|js|] r IH]; cbn [sel_multi sel_shape].
  - reflexivity.
  - by rewrite length_map.
  - unfold size_of. cbn [fold_right]. fold (size_of (sel_shape r)). rewrite <- IH.
    induction js as [|j js IHjs]; [reflexivity|].
    cbn [flat_map length]. rewrite length_app, length_map, IHjs. reflexivity.
  - unfold size_of. cbn [fold_right]. fold (size_of (sel_shape r)). lia.
Qed.

Lemma offset_from_acc (acc : nat) (shp pos : list nat) :
  in_range pos shp ->
  offset_from acc shp pos = acc * size_of shp + offset_from 0 shp pos.
Proof.
  unfold in_range. intros Hr. revert acc.
  induction Hr as [|p n pos shp Hp Hr IH]; intros acc.
  - cbn. lia.
  - cbn [offset_from]. rewrite (IH (acc * n + p)), (IH (0 * n + p)).
    unfold size_of. cbn [fold_right]. fold (size_of shp). lia.
Qed.

Lemma offset_from_lt (shp pos : list nat) :
  in_range pos shp -> offset_from 0 shp pos < size_of shp.
Proof.
  unfold in_range. induction 1 as [|p n pos shp Hp Hr IH].
  - cbn. lia.
  - cbn [offset_from]. rewrite offset_from_acc by exact Hr.
    unfold size_of. cbn [fold_right]. fold (size_of shp). nia.
Qed.

(** Reading a concatenation of blocks of equal length. *)
Lemma nth_flat_map_blocks {A B} (blk : A -> list B) (s : nat) (js : list A)
    (p o : nat) (d0 : A) (d : B) :
  (forall j, length (blk j) = s) ->
  p < length js -> o < s ->
  nth (p * s + o) (flat_map blk js) d = nth o (blk (nth p js d0)) d.
Proof.
  intros Hlen. revert p. induction js as [|j js IH]; intros p Hp Ho.
  - cbn in Hp. lia.
  - cbn [flat_map]. destruct p as [|p].
    + cbn [Nat.mul Nat.add nth]. apply app_nth1. by rewrite Hlen.
    + rewrite app_nth2 by (rewrite Hlen; lia).
      rewrite Hlen. replace (S p * s + o - s) with (p * s + o) by lia.
      cbn [nth]. apply IH; [cbn in Hp; lia | exact Ho].
Qed.

Lemma nth_sel_multi (sels : list axis_sel) (pos : list nat) (d : list nat) :
  in_range pos (sel_shape sels) ->
  nth (offset_from 0 (sel_shape sels) pos) (sel_multi sels) d = sel_source sels pos.
Proof.
  revert pos. induction sels as [|[i|js|] r IH]; intros pos Hr.
  - inversion Hr; subst. reflexivity.
  - cbn [sel_shape sel_multi sel_source] in *.
    rewrite (nth_indep _ d (i :: d))
      by (rewrite length_map, length_sel_multi; by apply offset_from_lt).
    rewrite (List.map_nth (cons i)). by rewrite IH.
  - cbn [sel_shape sel_multi sel_source] in *.
    inversion Hr as [|p n pos' shp' Hp Hr' Ep Es]; subst.
    cbn [offset_from]. rewrite offset_from_acc by exact Hr'.
    rewrite (nth_flat_map_blocks _ (size_of (sel_shape r)) js p _ 0 d).
    + rewrite (nth_indep _ d (nth p js 0 :: d))
        by (rewrite length_map, length_sel_multi; by apply offset_from_lt).
      rewrite (List.map_nth (cons (nth p js 0))). by rewrite IH.
    + intros j. by rewrite length_map, length_sel_multi.
    + exact Hp.
    + by apply offset_from_lt.
  - cbn [sel_shape sel_multi sel_source] in *.
    inversion Hr as [|p n pos' shp' Hp Hr' Ep Es]; subst.
    cbn [offset_from tl]. replace (0 * 1 + p) with 0 by lia. by apply IH.
Qed.

(** An element of a view is the element of the source it selects. *)
Lemma item_view (a : ndarray) (sels : list axis_sel) (pos : list nat) :
  in_range pos (sel_shape sels) ->
  item (view a sels) pos = item a (sel_source sels pos).
Proof.
  intros Hr. unfold item at 1. unfold view. cbn [shape flat].
  rewrite (nth_indep _ 0%Q (item a []))
    by (rewrite length_map, length_sel_multi; by apply offset_from_lt).
  rewrite (List.map_nth (item a)). by rewrite nth_sel_multi.
Qed.

Lemma sel_source_whole (shp pos : list nat) :
  in_range pos shp ->
  sel_source (map (fun n => SRange (seq 0 n)) shp) pos = pos.
Proof.
  unfold in_range. induction 1 as [|p n pos shp Hp Hr IH]; [reflexivity|].
  cbn [map sel_source]. by rewrite IH, List.seq_nth.
Qed.

(** Element [pos] of [a.T] is element [rev pos] of [a]. *)
Lemma item_T (a : ndarray) (pos : list nat) :
  in_range pos (rev (shape a)) ->
  item (ndarray_T a) pos = item a (rev pos).
Proof.
  intros Hr.
  unfold item at 1. unfold ndarray_T. cbn [shape flat].
  unfold all_indices.
  rewrite (nth_indep _ 0%Q (item a (rev [])))
    by (rewrite length_map, length_sel_multi, sel_shape_whole; by apply offset_from_lt).
  rewrite (List.map_nth (fun idx => item a (rev idx))).
  pose proof (nth_sel_multi (map (fun n => SRange (seq 0 n)) (rev (shape a))) pos []) as Hn.
  rewrite sel_shape_whole in Hn. rewrite (Hn Hr).
  by rewrite sel_source_whole.
Qed.

(** Element (i, 0, j, 0) of the canonical array is element (i, j) of the
    imported one. *)
Lemma item_canonical (a : ndarray) (T C i j : nat) :
  i < T -> j < C ->
  item (view a (canonical_sels T C [])) [i; 0; j; 0] = item a [i; j].
Proof.
  intros Hi Hj. rewrite item_view.
  - cbn [canonical_sels map sel_source tl]. by rewrite !List.seq_nth.
  - unfold in_range, canonical_sels. cbn [map sel_shape]. rewrite !length_seq.
    repeat constructor; lia.
Qed.

(** ** Well-formed arrays, element order, transposing twice *)

Lemma well_formed_view (a : ndarray) (sels : list axis_sel) :
  well_formed (view a sels).
Proof.
  unfold well_formed, view. cbn [shape flat].
  by rewrite length_map, length_sel_multi.
Qed.

Lemma well_formed_T (a : ndarray) : well_formed (ndarray_T a).
Proof.
  unfold well_formed, ndarray_T, all_indices. cbn [shape flat].
  by rewrite length_map, length_sel_multi, sel_shape_whole.
Qed.

Lemma well_formed_time (T : nat) (x : Q) : well_formed (ndarray_mul (r_ T) x).
Proof.
  unfold well_formed, ndarray_mul, r_, size_of. cbn [shape flat fold_right].
  rewrite !length_map, length_seq. lia.
Qed.

Lemma map_flat_map {A B C} (f : B -> C) (g : A -> list B) (l : list A) :
  map f (flat_map g l) = flat_map (fun x => map f (g x)) l.
Proof.
  induction l as [|x l IH]; [reflexivity|].
  cbn [flat_map]. by rewrite map_app, IH.
Qed.

Lemma flat_map_ext_seq {B} (f g : nat -> list B) (b n : nat) :
  (forall j, f j = g j) -> flat_map f (seq b n) = flat_map g (seq b n).
Proof.
  intros Hfg. induction (seq b n) as [|x l IH]; [reflexivity|].
  cbn [flat_map]. by rewrite Hfg, IH.
Qed.

Lemma blocks_seq (s b n : nat) :
  flat_map (fun j => seq (j * s) s) (seq b n) = seq (b * s) (n * s).
Proof.
  revert b. induction n as [|n IH]; intros b; [reflexivity|].
  cbn [seq flat_map]. rewrite IH.
  replace (S n * s) with (s + n * s) by lia.
  rewrite seq_app. do 2 f_equal. lia.
Qed.

Lemma offsets_all_indices (acc : nat) (shp : list nat) :
  map (offset_from acc shp) (all_indices shp)
  = seq (acc * size_of shp) (size_of shp).
Proof.
  revert acc. induction shp as [|n shp IH]; intros acc.
  - cbn. f_equal. lia.
  - unfold all_indices. cbn [map sel_multi]. fold (all_indices shp).
    rewrite map_flat_map.
    rewrite (flat_map_ext_seq _ (fun j => seq ((acc * n + j) * size_of shp) (size_of shp))).
    2:{ intros j. rewrite List.map_map. cbn [offset_from]. apply IH. }
    unfold size_of at 3 4. cbn [fold_right]. fold (size_of shp).
    transitivity (flat_map (fun j => seq (j * size_of shp) (size_of shp)) (seq (acc * n) n)).
    + clear IH. generalize (acc * n) as b. intros b.
      assert (Hgen : forall k m, flat_map (fun j => seq ((b + j) * size_of shp) (size_of shp))
                                   (seq k m)
                                 = flat_map (fun j => seq (j * size_of shp) (size_of shp))
                                     (seq (b + k) m)).
      { intros k m. revert k. induction m as [|m IHm]; intros k; [reflexivity|].
        cbn [seq flat_map]. rewrite IHm. do 3 f_equal. lia. }
      rewrite Hgen. by rewrite Nat.add_0_r.
    + rewrite blocks_seq. f_equal. lia.
Qed.

Lemma map_nth_seq {A} (l : list A) (d : A) :
  map (fun k => nth k l d) (seq 0 (length l)) = l.
Proof.
  induction l as [|x l IH]; [reflexivity|].
  cbn [length seq map nth]. f_equal.
  rewrite <- seq_shift, List.map_map. exact IH.
Qed.

(** Reading a well-formed array at all its positions, in row-major order,
    gives back its elements. *)
Lemma flat_whole (a : ndarray) :
  well_formed a -> map (item a) (all_indices (shape a)) = flat a.
Proof.
  intros Hwf. unfold item.
  rewrite <- (List.map_map (offset_from 0 (shape a)) (fun k => nth k (flat a) 0%Q)).
  rewrite offsets_all_indices. cbn [Nat.mul]. rewrite <- Hwf. apply map_nth_seq.
Qed.

Lemma sel_multi_canonical (T C : nat) (rest : list nat) :
  sel_multi (canonical_sels T C rest) = all_indices (T :: C :: rest).
Proof. reflexivity. Qed.

Lemma flat_canonical (a : ndarray) (T C : nat) (rest : list nat) :
  well_formed a -> shape a = T :: C :: rest ->
  flat (view a (canonical_sels T C rest)) = flat a.
Proof.
  intros Hwf Hs. unfold view. cbn [flat].
  rewrite sel_multi_canonical, <- Hs. by apply flat_whole.
Qed.

Lemma all_indices_in_range (shp : list nat) :
  Forall (fun idx => in_range idx shp) (all_indices shp).
Proof.
  induction shp as [|n shp IH].
  - repeat constructor.
  - unfold all_indices. cbn [map sel_multi]. fold (all_indices shp).
    apply Forall_flat_map. apply List.Forall_forall. intros j Hj.
    apply in_seq in Hj. apply List.Forall_map.
    eapply List.Forall_impl; [|exact IH].
    intros idx Hidx. constructor; [lia | exact Hidx].
Qed.

Lemma in_range_app (p1 p2 s1 s2 : list nat) :
  in_range p1 s1 -> in_range p2 s2 -> in_range (p1 ++ p2) (s1 ++ s2).
Proof.
  unfold in_range. induction 1; intros H2; [exact H2|].
  cbn [app]. constructor; auto.
Qed.

Lemma in_range_rev (pos shp : list nat) :
  in_range pos shp -> in_range (rev pos) (rev shp).
Proof.
  unfold in_range. induction 1 as [|p n pos shp Hp Hr IH]; [constructor|].
  cbn [rev]. apply in_range_app; [exact IH|]. by repeat constructor.
Qed.

(** [a.T.T] is [a]. *)
Lemma T_involutive (a : ndarray) :
  well_formed a -> ndarray_T (ndarray_T a) = a.
Proof.
  intros Hwf. destruct a as [shp fl]. unfold ndarray_T at 1.
  change (shape (ndarray_T {| shape := shp; flat := fl |})) with (rev shp).
  rewrite rev_involutive. f_equal.
  transitivity (map (item {| shape := shp; flat := fl |}) (all_indices shp));
    [|exact (flat_whole _ Hwf)].
  apply map_ext_Forall.
  eapply List.Forall_impl; [|apply all_indices_in_range].
  intros idx Hidx. cbn beta.
  rewrite item_T.
  - by rewrite rev_involutive.
  - cbn [shape]. by apply in_range_rev.
Qed.

(** An array with the shape and the elements of [a.T] is [a.T]. *)
Lemma transpose_unique (a b : ndarray) :
  well_formed b ->
  shape b = rev (shape a) ->
  (forall pos, in_range pos (shape b) -> item b pos = item a (rev pos)) ->
  b = ndarray_T a.
Proof.
  intros Hwf Hs Hitem. destruct b as [shp fl]. cbn [shape] in Hs, Hitem. subst shp.
  unfold ndarray_T. f_equal.
  transitivity (map (item {| shape := rev (shape a); flat := fl |})
                  (all_indices (rev (shape a))));
    [symmetry; exact (flat_whole _ Hwf)|].
  apply map_ext_Forall.
  eapply List.Forall_impl; [|apply all_indices_in_range].
  intros idx Hidx. by apply Hitem.
Qed.

(** The same for two axes, position by position. *)
Lemma transpose_unique_2d (a b : ndarray) (r c : nat) :
  shape a = [r; c] ->
  shape b = [c; r] ->
  well_formed b ->
  (forall i j, i < r -> j < c -> item b [j; i] = item a [i; j]) ->
  b = ndarray_T a.
Proof.
  intros Ha Hb Hwf Hitem. apply transpose_unique; [exact Hwf | by rewrite Ha, Hb |].
  rewrite Hb. intros pos Hpos.
  inversion Hpos as [|j c' pos1 shp1 Hj Hpos1]; subst.
  inversion Hpos1 as [|i r' pos2 shp2 Hi Hpos2]; subst.
  inversion Hpos2; subst. cbn [rev app]. by apply Hitem.
Qed.

(** ** Running the storage operations *)

Lemma files_put (st : State) (p : string) (f : H5File) :
  files (put_file st p f) !! p = Some f.
Proof. unfold put_file. cbn [files]. apply lookup_insert_eq. Qed.

Lemma put_put (st : State) (p : string) (f g : H5File) :
  put_file (put_file st p f) p g = put_file st p g.
Proof. unfold put_file. cbn [files log drawn]. by rewrite insert_insert_eq. Qed.

Lemma with_file_run {A} (p : string) (k : H5File -> exn + A * H5File)
    (st : State) (f f' : H5File) (a : A) :
  files st !! p = Some f -> k f = inr (a, f') ->
  with_file p k st = (inr a, put_file st p f').
Proof. intros Hf Hk. unfold with_file. by rewrite Hf, Hk. Qed.

Lemma write_slice_fresh (name p : string) (a : ndarray) (st : State) (f : H5File) :
  files st !! p = Some f -> datasets f !! name = None ->
  write_slice name p a st = (inr tt, put_file st p (set_dataset f name a)).
Proof.
  intros Hf Hd. unfold write_slice. apply (with_file_run _ _ _ f); [done|].
  by rewrite Hd.
Qed.

Lemma read_data_shape_run (p : string) (a : ndarray) (st : State) (f : H5File) :
  files st !! p = Some f -> datasets f !! "data" = Some a ->
  read_data_shape p st = (inr (shape a), put_file st p f).
Proof.
  intros Hf Hd. unfold read_data_shape. apply (with_file_run _ _ _ f); [done|].
  by rewrite Hd.
Qed.

Lemma store_run (p name : string) (v : value) (st : State) (f : H5File) :
  files st !! p = Some f ->
  store p name v st = (inr tt, put_file st p (set_attr f name v)).
Proof. intros Hf. unfold store. by apply (with_file_run _ _ _ f). Qed.

Lemma close_run (p : string) (st : State) (f : H5File) :
  files st !! p = Some f ->
  close p st = (inr tt, put_file st p (set_closed f)).
Proof. intros Hf. unfold close. by apply (with_file_run _ _ _ f). Qed.

Lemma bind_run {A B} (m : M A) (k : A -> M B) (st : State) :
  (m ≫= k) st =
  match m st with
  | (inl e, st') => (inl e, st')
  | (inr a, st') => k a st'
  end.
Proof. reflexivity. Qed.

Section Runs.
Context `{Collaborators}.

Lemma store_series_run (data : ndarray) (T C : nat) (rest : list nat)
    (start_time : Z) (ts : TimeSeries) (ts_idx : TimeSeriesIndex) (h : string)
    (st : State) (f0 : H5File) :
  shape data = T :: C :: rest ->
  files st !! h = Some f0 ->
  datasets f0 !! "time" = None ->
  datasets f0 !! "data" = None ->
  store_series data start_time ts ts_idx h st
  = (inr (imported_index ts_idx T C rest ts),
     put_file st h (imported_container f0 data T C rest start_time ts (idx_gid ts_idx))).
Proof.
  intros Hs Hf Ht Hd. unfold store_series.
  cbn [ts_sample_period ts_sample_period_unit ts_sample_rate ts_start_time
       ts_labels_ordering ts_labels_dimensions ts_title ts_class_name].
  rewrite Hs. cbn [tuple_get lookup list_lookup lift].
  rewrite (getitem_newaxis data T C rest Hs). cbn [lift].
  unfold write_time_slice, write_data_slice.
  rewrite bind_run. cbn [mret M_ret]. cbv iota beta.
  rewrite bind_run, (write_slice_fresh "time" h _ st f0 Hf Ht). cbv iota beta.
  rewrite bind_run. cbn [mret M_ret]. cbv iota beta.
  rewrite bind_run.
  rewrite (write_slice_fresh "data" h _ _ _ (files_put _ _ _))
    by (cbn [set_dataset datasets]; rewrite lookup_insert_ne by done; exact Hd).
  cbv iota beta. rewrite put_put.
  rewrite bind_run.
  rewrite (read_data_shape_run h _ _ _ (files_put _ _ _))
    by (cbn [set_dataset datasets]; apply lookup_insert_eq).
  cbv iota beta. rewrite put_put, shape_canonical.
  repeat (rewrite bind_run, (store_run h _ _ _ _ (files_put _ _ _));
          cbv iota beta; rewrite put_put).
  rewrite bind_run, (close_run h _ _ (files_put _ _ _)). cbv iota beta.
  rewrite put_put. reflexivity.
Qed.
End Runs.

(** ** Running the builders and [launch] *)

Section Launch.
Context `{Collaborators}.

Lemma ts_builder_region : ts_builder !! TS_REGION = Some create_region_ts.
Proof. unfold ts_builder. apply lookup_insert_eq. Qed.

Lemma ts_builder_eeg : ts_builder !! TS_EEG = Some create_eeg_ts.
Proof.
  unfold ts_builder. rewrite lookup_insert_ne by done. apply lookup_insert_eq.
Qed.

Lemma ts_builder_inv (k : string)
    (b : Importer -> list nat -> option topology ->
         M (TimeSeries * TimeSeriesIndex * string)) :
  ts_builder !! k = Some b ->
  (k = TS_REGION /\ b = create_region_ts) \/ (k = TS_EEG /\ b = create_eeg_ts).
Proof.
  unfold ts_builder. intros Hk.
  destruct (decide (TS_REGION = k)) as [<-|Hne].
  - rewrite lookup_insert_eq in Hk. left. split; congruence.
  - rewrite lookup_insert_ne in Hk by done.
    destruct (decide (TS_EEG = k)) as [<-|Hne'].
    + rewrite lookup_insert_eq in Hk. right. split; congruence.
    + rewrite lookup_insert_ne in Hk by done. by rewrite lookup_empty in Hk.
Qed.

Lemma create_region_ts_run (self : Importer) (shp : list nat) (c : connectivity)
    (C : nat) (st : State) :
  shp !! 1 = Some C ->
  number_of_regions c = Z.of_nat C ->
  create_region_ts self shp (Some (AConnectivity c)) st
  = (inr (TimeSeriesRegion, region_index c (uuid4 (drawn st)),
          path_for (storage_path self) TimeSeriesRegionH5 (uuid4 (drawn st))),
     put_file (drew st)
       (path_for (storage_path self) TimeSeriesRegionH5 (uuid4 (drawn st)))
       (region_container c)).
Proof.
  intros Hc Hn. unfold create_region_ts, tuple_get. rewrite Hc. cbn [lift].
  rewrite bind_run. cbn [mret M_ret]. cbv iota beta.
  rewrite Hn, Z.eqb_refl. cbn [negb].
  rewrite bind_run. unfold fresh_index. cbv iota beta.
  cbn [new_index idx_gid idx_class connectivity_gid has_surface_mapping sensors_gid
       title time_series_type sample_period_unit sample_period sample_rate
       labels_dimensions labels_ordering data_ndim data_length_1d data_length_2d
       data_length_3d data_length_4d].
  rewrite bind_run. unfold h5_open. cbv iota beta.
  rewrite bind_run, (store_run _ _ _ _ _ (files_put _ _ _)). cbv iota beta.
  rewrite put_put. reflexivity.
Qed.

Lemma create_eeg_ts_run (self : Importer) (shp : list nat) (s : sensors)
    (C : nat) (st : State) :
  shp !! 1 = Some C ->
  number_of_sensors s = Z.of_nat C ->
  create_eeg_ts self shp (Some (ASensors s)) st
  = (inr (TimeSeriesEEG, eeg_index s (uuid4 (drawn st)),
          path_for (storage_path self) TimeSeriesEEGH5 (uuid4 (drawn st))),
     put_file (drew st)
       (path_for (storage_path self) TimeSeriesEEGH5 (uuid4 (drawn st)))
       (eeg_container s)).
Proof.
  intros Hc Hn. unfold create_eeg_ts, tuple_get. rewrite Hc. cbn [lift].
  rewrite bind_run. cbn [mret M_ret]. cbv iota beta.
  rewrite Hn, Z.eqb_refl. cbn [negb].
  rewrite bind_run. unfold fresh_index. cbv iota beta.
  cbn [new_index idx_gid idx_class connectivity_gid has_surface_mapping sensors_gid
       title time_series_type sample_period_unit sample_period sample_rate
       labels_dimensions labels_ordering data_ndim data_length_1d data_length_2d
       data_length_3d data_length_4d].
  rewrite bind_run. unfold h5_open. cbv iota beta.
  rewrite bind_run, (store_run _ _ _ _ _ (files_put _ _ _)). cbv iota beta.
  rewrite put_put. reflexivity.
Qed.

(** A builder either fails and leaves the state alone, or succeeds on a
    shape with a channel axis that matches the topology. *)
Lemma create_region_ts_inv (self : Importer) (shp : list nat) (topo : option topology)
    (st st' : State) r :
  create_region_ts self shp topo st = (r, st') ->
  (exists e, r = inl e /\ st' = st /\ is_ParseException e = false) \/
  (exists c C, topo = Some (AConnectivity c) /\ shp !! 1 = Some C /\
               number_of_regions c = Z.of_nat C).
Proof.
  intros Hrun. destruct topo as [[c|s]|].
  - destruct (shp !! 1) as [C|] eqn:HC.
    + destruct (Z.eqb_spec (number_of_regions c) (Z.of_nat C)) as [Heq|Hne].
      * right. by exists c, C.
      * left. unfold create_region_ts, tuple_get in Hrun. rewrite HC in Hrun.
        cbn [lift] in Hrun. rewrite bind_run in Hrun.
        cbn [mret M_ret] in Hrun. cbv iota beta in Hrun.
        apply Z.eqb_neq in Hne. rewrite Hne in Hrun. cbn [negb] in Hrun.
        unfold raise in Hrun. inversion Hrun; subst. eauto.
    + left. unfold create_region_ts, tuple_get in Hrun. rewrite HC in Hrun.
      cbn [lift] in Hrun. rewrite bind_run in Hrun. unfold raise in Hrun.
      inversion Hrun; subst. eauto.
  - left. cbn in Hrun. unfold raise in Hrun. inversion Hrun; subst. eauto.
  - left. cbn in Hrun. unfold raise in Hrun. inversion Hrun; subst. eauto.
Qed.

Lemma create_eeg_ts_inv (self : Importer) (shp : list nat) (topo : option topology)
    (st st' : State) r :
  create_eeg_ts self shp topo st = (r, st') ->
  (exists e, r = inl e /\ st' = st /\ is_ParseException e = false) \/
  (exists s C, topo = Some (ASensors s) /\ shp !! 1 = Some C /\
               number_of_sensors s = Z.of_nat C).
Proof.
  intros Hrun. destruct topo as [[c|s]|].
  - left. cbn in Hrun. unfold raise in Hrun. inversion Hrun; subst. eauto.
  - destruct (shp !! 1) as [C|] eqn:HC.
    + destruct (Z.eqb_spec (number_of_sensors s) (Z.of_nat C)) as [Heq|Hne].
      * right. by exists s, C.
      * left. unfold create_eeg_ts, tuple_get in Hrun. rewrite HC in Hrun.
        cbn [lift] in Hrun. rewrite bind_run in Hrun.
        cbn [mret M_ret] in Hrun. cbv iota beta in Hrun.
        apply Z.eqb_neq in Hne. rewrite Hne in Hrun. cbn [negb] in Hrun.
        unfold raise in Hrun. inversion Hrun; subst. eauto.
    + left. unfold create_eeg_ts, tuple_get in Hrun. rewrite HC in Hrun.
      cbn [lift] in Hrun. rewrite bind_run in Hrun. unfold raise in Hrun.
      inversion Hrun; subst. eauto.
  - left. cbn in Hrun. unfold raise in Hrun. inversion Hrun; subst. eauto.
Qed.

Lemma builder_run (self : Importer) (topo : option topology) (C : nat)
    cls ts mk f0 (shp : list nat) (st : State) :
  accepts self topo C cls ts mk f0 ->
  shp !! 1 = Some C ->
  exists b : Importer -> list nat -> option topology ->
             M (TimeSeries * TimeSeriesIndex * string),
    ts_builder !! tstype self = Some b /\
    b self shp topo st
    = (inr (ts, mk (uuid4 (drawn st)), path_for (storage_path self) cls (uuid4 (drawn st))),
       put_file (drew st) (path_for (storage_path self) cls (uuid4 (drawn st))) f0) /\
    datasets f0 = ∅.
Proof.
  intros [c Ht -> Hn | s Ht -> Hn] Hc.
  - exists create_region_ts. rewrite Ht. split; [apply ts_builder_region|].
    split; [by apply (create_region_ts_run _ _ _ C) | reflexivity].
  - exists create_eeg_ts. rewrite Ht. split; [apply ts_builder_eeg|].
    split; [by apply (create_eeg_ts_run _ _ _ C) | reflexivity].
Qed.

Lemma launch_run (self : Importer) (data_file dataset_name structure_path : string)
    (transpose : bool) (slice : option string) (sampling_rate start_time : Z)
    (topo : option topology) (st : State)
    (data : ndarray) (T C : nat) (rest : list nat) cls ts mk f0 :
  load_data data_file dataset_name structure_path transpose slice = inr data ->
  shape data = T :: C :: rest ->
  accepts self topo C cls ts mk f0 ->
  launch self data_file dataset_name structure_path transpose slice
    sampling_rate start_time topo st
  = launch_result self data T C rest start_time cls ts mk f0 st.
Proof.
  intros Hload Hs Hacc.
  destruct (builder_run self topo C cls ts mk f0 (shape data) st Hacc)
    as (b & Hb & Hrun & Hempty); [by rewrite Hs|].
  unfold launch, try_except, launch_body, dict_get.
  rewrite Hload, Hb. cbn [lift].
  rewrite bind_run. cbn [mret M_ret]. cbv iota beta.
  rewrite bind_run. cbn [mret M_ret]. cbv iota beta.
  rewrite bind_run, Hrun. cbv iota beta.
  rewrite (store_series_run data T C rest start_time ts _ _ _ f0 Hs (files_put _ _ _))
    by (rewrite Hempty; apply lookup_empty).
  rewrite put_put. reflexivity.
Qed.

Lemma shape_of_channel (shp : list nat) (C : nat) :
  shp !! 1 = Some C -> exists T rest, shp = T :: C :: rest.
Proof.
  destruct shp as [|T [|C' rest]]; intros Hc; try discriminate.
  cbn in Hc. injection Hc as ->. eauto.
Qed.

(** Every run of [launch] is of one of three kinds: the reader or the
    slice parser raised a [ParseException], which is logged and wrapped;
    some other exception came out and the state is as before; or the
    import went through. *)
Lemma launch_cases (self : Importer) (data_file dataset_name structure_path : string)
    (transpose : bool) (slice : option string) (sampling_rate start_time : Z)
    (topo : option topology) (st : State) :
  (exists m,
      load_data data_file dataset_name structure_path transpose slice
      = inl (ParseException m) /\
      launch self data_file dataset_name structure_path transpose slice
        sampling_rate start_time topo st
      = (inl (LaunchException (Wrapped (ParseException m))),
         logged st (ParseException m)))
  \/ (exists e,
      is_ParseException e = false /\
      launch self data_file dataset_name structure_path transpose slice
        sampling_rate start_time topo st = (inl e, st))
  \/ (exists data T C rest cls ts mk f0,
      load_data data_file dataset_name structure_path transpose slice = inr data /\
      shape data = T :: C :: rest /\
      accepts self topo C cls ts mk f0 /\
      launch self data_file dataset_name structure_path transpose slice
        sampling_rate start_time topo st
      = launch_result self data T C rest start_time cls ts mk f0 st).
Proof.
  destruct (load_data data_file dataset_name structure_path transpose slice)
    as [e|data] eqn:Hload.
  - assert (Hrun : launch_body self data_file dataset_name structure_path transpose
                     slice sampling_rate start_time topo st = (inl e, st)).
    { unfold launch_body. rewrite Hload. reflexivity. }
    destruct (is_ParseException e) eqn:He.
    + left. destruct e; try discriminate. exists msg. split; [reflexivity|].
      unfold launch, try_except. rewrite Hrun. reflexivity.
    + right. left. exists e. split; [done|].
      unfold launch, try_except. by rewrite Hrun, He.
  - destruct (ts_builder !! tstype self) as [b|] eqn:Hb.
    + assert (Hbody : launch_body self data_file dataset_name structure_path transpose
                        slice sampling_rate start_time topo st
                      = (b self (shape data) topo ≫=
                           λ '(ts, ts_idx, ts_h5),
                             store_series data start_time ts ts_idx ts_h5) st).
      { unfold launch_body, dict_get. rewrite Hload, Hb. reflexivity. }
      destruct (b self (shape data) topo st) as [r st1] eqn:Hrun.
      assert (Hfail : forall e, r = inl e -> st1 = st -> is_ParseException e = false ->
                exists e0, is_ParseException e0 = false /\
                  launch self data_file dataset_name structure_path transpose slice
                    sampling_rate start_time topo st = (inl e0, st)).
      { intros e -> -> He. exists e. split; [done|].
        unfold launch, try_except. rewrite Hbody, bind_run, Hrun. by rewrite He. }
      destruct (ts_builder_inv _ _ Hb) as [[Hk ->]|[Hk ->]].
      * destruct (create_region_ts_inv _ _ _ _ _ _ Hrun)
          as [(e & -> & -> & He)|(c & C & -> & HC & Hn)].
        { right. left. by apply (Hfail e). }
        destruct (shape_of_channel _ _ HC) as (T & rest & Hs).
        right. right.
        exists data, T, C, rest, TimeSeriesRegionH5, TimeSeriesRegion,
          (region_index c), (region_container c).
        assert (Hacc : accepts self (Some (AConnectivity c)) C TimeSeriesRegionH5
                         TimeSeriesRegion (region_index c) (region_container c))
          by (by apply accepts_region).
        repeat split; try done. by apply launch_run.
      * destruct (create_eeg_ts_inv _ _ _ _ _ _ Hrun)
          as [(e & -> & -> & He)|(s & C & -> & HC & Hn)].
        { right. left. by apply (Hfail e). }
        destruct (shape_of_channel _ _ HC) as (T & rest & Hs).
        right. right.
        exists data, T, C, rest, TimeSeriesEEGH5, TimeSeriesEEG,
          (eeg_index s), (eeg_container s).
        assert (Hacc : accepts self (Some (ASensors s)) C TimeSeriesEEGH5
                         TimeSeriesEEG (eeg_index s) (eeg_container s))
          by (by apply accepts_eeg).
        repeat split; try done. by apply launch_run.
    + right. left. exists (KeyError (tstype self)). split; [done|].
      unfold launch, try_except, launch_body, dict_get. rewrite Hload, Hb.
      reflexivity.
Qed.

End Launch.

(** ** What the imported container holds *)

Section Container.
Variables (f0 : H5File) (data : ndarray) (T C : nat) (rest : list nat).
Variables (start_time : Z) (ts : TimeSeries) (g : Gid).

Lemma imported_data :
  datasets (imported_container f0 data T C rest start_time ts g)
  !! "data" = Some (view data (canonical_sels T C rest)).
Proof.
  unfold imported_container. cbn [set_closed set_attr set_dataset datasets].
  apply lookup_insert_eq.
Qed.

Lemma imported_time :
  datasets (imported_container f0 data T C rest start_time ts g)
  !! "time" = Some (ndarray_mul (r_ T) (ts_sample_period ts)).
Proof.
  unfold imported_container. cbn [set_closed set_attr set_dataset datasets].
  rewrite lookup_insert_ne by done. apply lookup_insert_eq.
Qed.

Lemma imported_gid : attrs (imported_container f0 data T C rest start_time ts g)
  !! "gid" = Some (VStr g).
Proof.
  unfold imported_container. cbn [set_closed set_attr set_dataset attrs].
  rewrite !lookup_insert_ne by done. apply lookup_insert_eq.
Qed.

Lemma imported_sample_period :
  attrs (imported_container f0 data T C rest start_time ts g)
  !! "sample_period" = Some (VFloat (ts_sample_period ts)).
Proof.
  unfold imported_container. cbn [set_closed set_attr set_dataset attrs].
  rewrite !lookup_insert_ne by done. apply lookup_insert_eq.
Qed.

Lemma imported_sample_period_unit :
  attrs (imported_container f0 data T C rest start_time ts g)
  !! "sample_period_unit" = Some (VStr "s").
Proof.
  unfold imported_container. cbn [set_closed set_attr set_dataset attrs].
  rewrite !lookup_insert_ne by done. apply lookup_insert_eq.
Qed.

Lemma imported_nr_dimensions :
  attrs (imported_container f0 data T C rest start_time ts g)
  !! "nr_dimensions" = Some (VInt (Z.of_nat (4 + length rest))).
Proof.
  unfold imported_container. cbn [set_closed set_attr set_dataset attrs].
  rewrite !lookup_insert_ne by done. apply lookup_insert_eq.
Qed.

Lemma imported_closed : closed (imported_container f0 data T C rest start_time ts g) = true.
Proof. reflexivity. Qed.
End Container.

Lemma accepts_gid `{Collaborators} (self : Importer) (topo : option topology) (C : nat)
    cls ts mk f0 (g : Gid) :
  accepts self topo C cls ts mk f0 -> idx_gid (mk g) = g.
Proof. by intros [c _ _ _|s _ _ _]. Qed.

(** ** Substrings *)

Lemma prefix_append (s t : string) : String.prefix s (s +:+ t) = true.
Proof.
  induction s as [|a s IH]; [by destruct t|].
  change (String.prefix (String a s) (String a (s +:+ t)) = true).
  simpl String.prefix. destruct (ascii_dec a a); [exact IH | congruence].
Qed.

Lemma contains_append (sub pre post : string) :
  contains sub (pre +:+ sub +:+ post) = true.
Proof.
  induction pre as [|a pre IH].
  - change (contains sub (sub +:+ post) = true).
    destruct sub; [by destruct post|].
    change (String a sub +:+ post) with (String a (sub +:+ post)).
    cbn [contains].
    change (String a (sub +:+ post)) with (String a sub +:+ post).
    by rewrite prefix_append.
  - change (contains sub (String a (pre +:+ sub +:+ post)) = true).
    cbn [contains]. rewrite IH. apply orb_true_r.
Qed.

Lemma contains_skip (sub pre s : string) :
  contains sub s = true -> contains sub (pre +:+ s) = true.
Proof.
  intros Hs. induction pre as [|a pre IH]; [exact Hs|].
  change (contains sub (String a (pre +:+ s)) = true).
  cbn [contains]. rewrite IH. apply orb_true_r.
Qed.

Lemma prefix_self (s : string) : String.prefix s s = true.
Proof.
  induction s as [|a s IH]; [reflexivity|].
  simpl String.prefix. destruct (ascii_dec a a); [exact IH | congruence].
Qed.

Lemma contains_self (s : string) : contains s s = true.
Proof. destruct s; cbn [contains]; by rewrite prefix_self. Qed.

Lemma region_message_counts (channels : nat) (regions : Z) :
  contains (pretty (Z.of_nat channels)) (region_mismatch_message channels regions) = true /\
  contains (pretty regions) (region_mismatch_message channels regions) = true.
Proof.
  unfold region_mismatch_message. split.
  - apply contains_append.
  - do 2 apply contains_skip. apply contains_append.
Qed.

Lemma sensors_message_counts (channels : nat) (count : Z) :
  contains (pretty (Z.of_nat channels)) (sensors_mismatch_message channels count) = true /\
  contains (pretty count) (sensors_mismatch_message channels count) = true.
Proof.
  unfold sensors_mismatch_message. split.
  - apply contains_append.
  - do 3 apply contains_skip. apply contains_self.
Qed.

(** * The claims *)

Section Claims.
Context `{Collaborators}.

(** The region importer on a two-dimensional array. *)
Lemma region_import_shape (storage data_file dataset_name structure_path : string)
    (transpose : bool) (slice : option string) (sampling_rate start_time : Z)
    (c : connectivity) (st : State) (data : ndarray) (T C : nat) :
  load_data data_file dataset_name structure_path transpose slice = inr data ->
  shape data = [T; C] ->
  number_of_regions c = Z.of_nat C ->
  exists idx st' h5 canonical,
    launch (MatTimeSeriesImporter storage) data_file dataset_name structure_path
      transpose slice sampling_rate start_time (Some (AConnectivity c)) st
    = (inr idx, st') /\
    files st' !! path_for storage TimeSeriesRegionH5 (idx_gid idx) = Some h5 /\
    datasets h5 !! "data" = Some canonical /\
    shape canonical = [T; 1; C; 1] /\
    (forall i j, i < T -> j < C -> item canonical [i; 0; j; 0] = item data [i; j]) /\
    (data_length_1d idx, data_length_2d idx, data_length_3d idx, data_length_4d idx)
    = prepare_array_shape_meta (shape canonical) /\
    data_ndim idx = Some (length (shape canonical)) /\
    (data_length_1d idx, data_length_2d idx, data_length_3d idx, data_length_4d idx)
    = (Some T, Some 1, Some C, Some 1) /\
    data_ndim idx = Some 4.
Proof.
  intros Hload Hs Hn.
  assert (Hacc : accepts (MatTimeSeriesImporter storage) (Some (AConnectivity c)) C
                   TimeSeriesRegionH5 TimeSeriesRegion (region_index c)
                   (region_container c)) by (by apply accepts_region).
  rewrite (launch_run _ _ _ _ _ _ sampling_rate start_time _ st data T C []
             _ _ _ _ Hload Hs Hacc).
  unfold launch_result. do 4 eexists. split; [reflexivity|].
  cbn [imported_index idx_gid region_index storage_path MatTimeSeriesImporter].
  split; [apply files_put|]. split; [apply imported_data|].
  rewrite shape_canonical.
split; [reflexivity|]. split; [intros i j; apply item_canonical|].
by repeat split.
Qed.

(** C1. For every imported array of shape (T, C) whose channel count C is
    the connectivity's number of regions, [launch] succeeds, the container
    it leaves behind holds a "data" array of shape (T, 1, C, 1) whose
    element (i, 0, j, 0) is element (i, j) of the imported array, and the
    four shape slots and [data_ndim] of the returned index record are
    those of that persisted shape. *)
Theorem C1_round_trip_shape (storage data_file dataset_name structure_path : string)
    (transpose : bool) (slice : option string) (sampling_rate start_time : Z)
    (c : connectivity) (st : State) (data : ndarray) (T C : nat) :
  load_data data_file dataset_name structure_path transpose slice = inr data ->
  shape data = [T; C] ->
  number_of_regions c = Z.of_nat C ->
  exists idx st' h5 canonical,
    launch (MatTimeSeriesImporter storage) data_file dataset_name structure_path
      transpose slice sampling_rate start_time (Some (AConnectivity c)) st
    = (inr idx, st') /\
    files st' !! path_for storage TimeSeriesRegionH5 (idx_gid idx) = Some h5 /\
    datasets h5 !! "data" = Some canonical /\
    shape canonical = [T; 1; C; 1] /\
    (forall i j, i < T -> j < C -> item canonical [i; 0; j; 0] = item data [i; j]) /\
    (data_length_1d idx, data_length_2d idx, data_length_3d idx, data_length_4d idx)
    = prepare_array_shape_meta (shape canonical) /\
    data_ndim idx = Some (length (shape canonical)) /\
    (data_length_1d idx, data_length_2d idx, data_length_3d idx, data_length_4d idx)
    = (Some T, Some 1, Some C, Some 1) /\
    data_ndim idx = Some 4.
Proof.
  intros Hload Hs Hn.
  by apply (region_import_shape storage data_file dataset_name structure_path
              transpose slice sampling_rate start_time c st data T C).
Qed.

(** C3. When the channel axis of the imported array (axis 1 after
    transpose and slicing) differs from the channel count of the topology,
    [launch] raises a [LaunchException] whose message contains both
    counts, and the state is exactly as before: no container, no index
    record, no identifier drawn. *)
Theorem C3_channel_mismatch_rejected (self : Importer)
    (data_file dataset_name structure_path : string)
    (transpose : bool) (slice : option string) (sampling_rate start_time : Z)
    (st : State) (data : ndarray) (T C : nat) (rest : list nat) :
  load_data data_file dataset_name structure_path transpose slice = inr data ->
  shape data = T :: C :: rest ->
  (forall c : connectivity,
      tstype self = TS_REGION ->
      number_of_regions c <> Z.of_nat C ->
      exists msg,
        launch self data_file dataset_name structure_path transpose slice
          sampling_rate start_time (Some (AConnectivity c)) st
        = (inl (LaunchException (Message msg)), st) /\
        contains (pretty (Z.of_nat C)) msg = true /\
        contains (pretty (number_of_regions c)) msg = true) /\
  (forall s : sensors,
      tstype self = TS_EEG ->
      number_of_sensors s <> Z.of_nat C ->
      exists msg,
        launch self data_file dataset_name structure_path transpose slice
          sampling_rate start_time (Some (ASensors s)) st
        = (inl (LaunchException (Message msg)), st) /\
        contains (pretty (Z.of_nat C)) msg = true /\
        contains (pretty (number_of_sensors s)) msg = true).
Proof.
  intros Hload Hs. split.
  - intros c Ht Hne. exists (region_mismatch_message C (number_of_regions c)).
    split; [|apply region_message_counts].
    unfold launch, try_except, launch_body, dict_get.
    rewrite Hload, Ht, ts_builder_region. cbn [lift].
    rewrite bind_run. cbn [mret M_ret]. cbv iota beta.
    rewrite bind_run. cbn [mret M_ret]. cbv iota beta.
    rewrite bind_run, Hs.
    unfold create_region_ts, tuple_get. cbn [lookup list_lookup lift].
    rewrite bind_run. cbn [mret M_ret]. cbv iota beta.
    apply Z.eqb_neq in Hne. rewrite Hne. reflexivity.
  - intros s Ht Hne. exists (sensors_mismatch_message C (number_of_sensors s)).
    split; [|apply sensors_message_counts].
    unfold launch, try_except, launch_body, dict_get.
    rewrite Hload, Ht, ts_builder_eeg. cbn [lift].
    rewrite bind_run. cbn [mret M_ret]. cbv iota beta.
    rewrite bind_run. cbn [mret M_ret]. cbv iota beta.
    rewrite bind_run, Hs.
    unfold create_eeg_ts, tuple_get. cbn [lookup list_lookup lift].
    rewrite bind_run. cbn [mret M_ret]. cbv iota beta.
    apply Z.eqb_neq in Hne. rewrite Hne. reflexivity.
Qed.

(** C9. Two calls of [launch] that differ only in [sampling_rate] return
    the same index record and leave the same state (containers with
    sample period, sample rate, time axis and data; log; identifiers):
    the body never reads the argument. *)
Theorem C9_sampling_rate_not_read (self : Importer)
    (data_file dataset_name structure_path : string)
    (transpose : bool) (slice : option string) (rate1 rate2 start_time : Z)
    (topo : option topology) (st : State) :
  launch self data_file dataset_name structure_path transpose slice
    rate1 start_time topo st
  = launch self data_file dataset_name structure_path transpose slice
      rate2 start_time topo st.
Proof. reflexivity. Qed.

(** C8. When the structured file reader fails with a [ParseException],
    [launch] logs that exception (one new log entry) and raises a
    [LaunchException] wrapping it; the containers on disk are untouched
    and no identifier is drawn. *)
Theorem C8_parse_failure_isolated (self : Importer)
    (data_file dataset_name structure_path : string)
    (transpose : bool) (slice : option string) (sampling_rate start_time : Z)
    (topo : option topology) (st : State) (m : string) :
  read_nested_mat_file data_file dataset_name structure_path
  = inl (ParseException m) ->
  exists st',
    launch self data_file dataset_name structure_path transpose slice
      sampling_rate start_time topo st
    = (inl (LaunchException (Wrapped (ParseException m))), st') /\
    is_ParseException (LaunchException (Wrapped (ParseException m))) = false /\
    log st' = log st ++ [ParseException m] /\
    files st' = files st /\
    drawn st' = drawn st.
Proof.
  intros Hread. exists (logged st (ParseException m)).
  split; [|by repeat split].
  unfold launch, try_except, launch_body, load_data. rewrite Hread. reflexivity.
Qed.

(** C10. Every successful [launch] of [MatTimeSeriesImporter] was given a
    connectivity and returns a [TimeSeriesRegionIndex] whose
    [connectivity_gid] is that connectivity's identifier and whose
    [has_surface_mapping] is true; the dispatch on [tstype] selects
    [create_region_ts], and no sensors identifier is set. *)
Theorem C10_region_index_returned (storage data_file dataset_name structure_path : string)
    (transpose : bool) (slice : option string) (sampling_rate start_time : Z)
    (topo : option topology) (st st' : State) (idx : TimeSeriesIndex) :
  launch (MatTimeSeriesImporter storage) data_file dataset_name structure_path
    transpose slice sampling_rate start_time topo st = (inr idx, st') ->
  dict_get ts_builder (tstype (MatTimeSeriesImporter storage)) = inr create_region_ts /\
  exists c,
    topo = Some (AConnectivity c) /\
    idx_class idx = TimeSeriesRegionIndex /\
    connectivity_gid idx = Some (conn_gid c) /\
    has_surface_mapping idx = Some true /\
    sensors_gid idx = None.
Proof.
  intros Hrun. split.
  { unfold dict_get. cbn [tstype MatTimeSeriesImporter].
    by rewrite ts_builder_region. }
  destruct (launch_cases (MatTimeSeriesImporter storage) data_file dataset_name
              structure_path transpose slice sampling_rate start_time topo st)
    as [(m & _ & Hl)|[(e & _ & Hl)|(data & T & C & rest & cls & ts & mk & f0 &
                                     _ & _ & Hacc & Hl)]];
    rewrite Hl in Hrun; try discriminate.
  unfold launch_result in Hrun. injection Hrun as <- <-.
  destruct Hacc as [c Ht -> Hn|s Ht -> Hn]; [|discriminate].
  exists c. by repeat split.
Qed.

(** C5. For a two-dimensional array [A] of shape (r, c), let [B] be its
    transpose: the array of shape (c, r) whose element (j, i) is element
    (i, j) of [A].  Importing a file that holds [A] with
    [transpose = true] gives the same result (index record, containers,
    log, identifiers) as importing a file that holds [B] with
    [transpose = false], everything else equal. *)
Theorem C5_transpose_correct (self : Importer) (A B : ndarray) (r c : nat)
    (file1 name1 path1 file2 name2 path2 : string)
    (slice : option string) (sampling_rate start_time : Z)
    (topo : option topology) (st : State) :
  shape A = [r; c] ->
  shape B = [c; r] ->
  well_formed B ->
  (forall i j, i < r -> j < c -> item B [j; i] = item A [i; j]) ->
  read_nested_mat_file file1 name1 path1 = inr A ->
  read_nested_mat_file file2 name2 path2 = inr B ->
  launch self file1 name1 path1 true slice sampling_rate start_time topo st
  = launch self file2 name2 path2 false slice sampling_rate start_time topo st.
Proof.
  intros HA HB Hwf Hitem H1 H2.
  rewrite (transpose_unique_2d A B r c HA HB Hwf Hitem) in H2.
  unfold launch, launch_body, load_data. by rewrite H1, H2.
Qed.

(** C7. After every successful [launch] the container of the returned
    index record holds a "time" dataset of shape (T), where T is the
    number of time samples of the imported array and the length of axis 0
    of the persisted "data", and its i-th entry is i * sample_period, for
    the sample period stored in the container and mirrored on the index
    record. *)
Theorem C7_time_axis (self : Importer) (data_file dataset_name structure_path : string)
    (transpose : bool) (slice : option string) (sampling_rate start_time : Z)
    (topo : option topology) (st st' : State) (idx : TimeSeriesIndex) :
  launch self data_file dataset_name structure_path transpose slice
    sampling_rate start_time topo st = (inr idx, st') ->
  exists path h5 time data sp T rest,
    files st' !! path = Some h5 /\
    attrs h5 !! "gid" = Some (VStr (idx_gid idx)) /\
    datasets h5 !! "time" = Some time /\
    datasets h5 !! "data" = Some data /\
    shape data = T :: rest /\
    attrs h5 !! "sample_period" = Some (VFloat sp) /\
    sample_period idx = Some sp /\
    shape time = [T] /\
    flat time = map (fun i => (inject_Z (Z.of_nat i) * sp)%Q) (seq 0 T) /\
    length (flat time) = T /\
    forall i, i < T -> nth i (flat time) 0%Q = (inject_Z (Z.of_nat i) * sp)%Q.
Proof.
  intros Hrun.
  destruct (launch_cases self data_file dataset_name structure_path transpose slice
              sampling_rate start_time topo st)
    as [(m & _ & Hl)|[(e & _ & Hl)|(data & T & C & rest & cls & ts & mk & f0 &
                                     _ & Hs & Hacc & Hl)]];
    rewrite Hl in Hrun; try discriminate.
  unfold launch_result in Hrun. injection Hrun as <- <-.
  cbn [imported_index idx_gid sample_period].
  rewrite !(accepts_gid _ _ _ _ _ _ _ _ Hacc).
  eexists _, _, _, _, (ts_sample_period ts), T, (1 :: C :: 1 :: rest).
  split; [apply files_put|]. split; [apply imported_gid|].
  split; [apply imported_time|]. split; [apply imported_data|].
  split; [apply shape_canonical|]. split; [apply imported_sample_period|].
  split; [reflexivity|]. split; [reflexivity|].
  assert (Hflat : flat (ndarray_mul (r_ T) (ts_sample_period ts))
                  = map (fun i => (inject_Z (Z.of_nat i) * ts_sample_period ts)%Q)
                      (seq 0 T)).
  { unfold ndarray_mul, r_. cbn [flat shape]. by rewrite List.map_map. }
  split; [exact Hflat|]. rewrite Hflat. split.
  - by rewrite length_map, length_seq.
  - intros i Hi.
    rewrite (nth_indep _ 0%Q ((inject_Z (Z.of_nat T) * ts_sample_period ts)%Q))
      by (rewrite length_map, length_seq; lia).
    rewrite (List.map_nth (fun i => (inject_Z (Z.of_nat i) * ts_sample_period ts)%Q)).
    by rewrite List.seq_nth.
Qed.

(** C2 (what the code does). A successful [launch] of
    [MatTimeSeriesImporter] stores, in the container and on the index
    record, the sample period that the freshly constructed
    [TimeSeriesRegion] object carries, whatever the sampling rate; the
    unit is "s". *)
Theorem C2_sample_period_is_the_default (storage data_file dataset_name structure_path : string)
    (transpose : bool) (slice : option string) (sampling_rate start_time : Z)
    (topo : option topology) (st st' : State) (idx : TimeSeriesIndex) :
  launch (MatTimeSeriesImporter storage) data_file dataset_name structure_path
    transpose slice sampling_rate start_time topo st = (inr idx, st') ->
  sample_period idx = Some (ts_sample_period TimeSeriesRegion) /\
  sample_period_unit idx = Some "s" /\
  exists h5,
    files st' !! path_for storage TimeSeriesRegionH5 (idx_gid idx) = Some h5 /\
    attrs h5 !! "sample_period" = Some (VFloat (ts_sample_period TimeSeriesRegion)) /\
    attrs h5 !! "sample_period_unit" = Some (VStr "s").
Proof.
  intros Hrun.
  destruct (launch_cases (MatTimeSeriesImporter storage) data_file dataset_name
              structure_path transpose slice sampling_rate start_time topo st)
    as [(m & _ & Hl)|[(e & _ & Hl)|(data & T & C & rest & cls & ts & mk & f0 &
                                     _ & _ & Hacc & Hl)]];
    rewrite Hl in Hrun; try discriminate.
  unfold launch_result in Hrun. injection Hrun as <- <-.
  destruct Hacc as [c Ht -> Hn|s Ht -> Hn]; [|discriminate].
  split; [reflexivity|]. split; [reflexivity|].
  eexists. split; [apply files_put|].
  split; [apply imported_sample_period | apply imported_sample_period_unit].
Qed.

(** C6. The slice is applied to the array as it is after the transpose
    step.  For a file holding an array of shape (4, 3), imported with
    [transpose = false] and slice "1:3,:", the persisted time axis has
    length 2; and for a file holding an array of shape (3, 4), imported
    with [transpose = true] and the same slice, it has length 2 as well,
    with 3 channels: the slice acted on (time, channel). *)
Theorem C6_slice_after_transpose (storage data_file dataset_name structure_path : string)
    (sampling_rate start_time : Z) (c : connectivity) (st : State) (A : ndarray) :
  read_nested_mat_file data_file dataset_name structure_path = inr A ->
  number_of_regions c = 3%Z ->
  (forall (transpose : bool) (s : string),
      truthy (Some s) = true ->
      load_data data_file dataset_name structure_path transpose (Some s)
      = match parse_slice s with
        | inl e => inl e
        | inr index => getitem (if transpose then ndarray_T A else A) index
        end) /\
  (forall transpose : bool,
      shape A = (if transpose then [3; 4] else [4; 3]) ->
      exists idx st' h5 canonical,
        launch (MatTimeSeriesImporter storage) data_file dataset_name structure_path
          transpose (Some "1:3,:") sampling_rate start_time
          (Some (AConnectivity c)) st
        = (inr idx, st') /\
        files st' !! path_for storage TimeSeriesRegionH5 (idx_gid idx) = Some h5 /\
        datasets h5 !! "data" = Some canonical /\
        shape canonical = [2; 1; 3; 1] /\
        data_length_1d idx = Some 2 /\
        data_length_3d idx = Some 3).
Proof.
  intros Hread Hn. split.
  - intros transpose s Hs. unfold load_data. rewrite Hread, Hs. reflexivity.
  - intros transpose HA.
    set (B := if transpose then ndarray_T A else A).
    assert (HB : shape B = [4; 3]).
    { subst B. destruct transpose; [|exact HA].
      unfold ndarray_T. cbn [shape]. by rewrite HA. }
    assert (Hload : load_data data_file dataset_name structure_path transpose
                      (Some "1:3,:")
                    = inr (view B [SRange [1; 2]; SRange [0; 1; 2]])).
    { unfold load_data. rewrite Hread. fold B.
      change (truthy (Some "1:3,:")) with true. cbv iota.
      change (parse_slice (default EmptyString (Some "1:3,:")))
        with (@inr exn _ [ISlice (Some 1%Z) (Some 3%Z) None; ISlice None None None]).
      cbv iota. unfold getitem, ndim. rewrite HB. reflexivity. }
    destruct (region_import_shape storage data_file dataset_name structure_path
                transpose (Some "1:3,:") sampling_rate start_time c st _ 2 3
                Hload eq_refl Hn)
      as (idx & st' & h5 & canonical & Hrun & Hfile & Hdata & Hshape & _ & _ & _ & Hlen & _).
    exists idx, st', h5, canonical. repeat split; try done; congruence.
Qed.

(** A channel-count mismatch, for either builder. *)
Lemma launch_mismatch (self : Importer) (data_file dataset_name structure_path : string)
    (transpose : bool) (slice : option string) (sampling_rate start_time : Z)
    (st : State) (data : ndarray) (T C : nat) (rest : list nat) :
  load_data data_file dataset_name structure_path transpose slice = inr data ->
  shape data = T :: C :: rest ->
  (forall c : connectivity,
      tstype self = TS_REGION ->
      number_of_regions c <> Z.of_nat C ->
      launch self data_file dataset_name structure_path transpose slice
        sampling_rate start_time (Some (AConnectivity c)) st
      = (inl (LaunchException (Message (region_mismatch_message C (number_of_regions c)))),
         st)) /\
  (forall s : sensors,
      tstype self = TS_EEG ->
      number_of_sensors s <> Z.of_nat C ->
      launch self data_file dataset_name structure_path transpose slice
        sampling_rate start_time (Some (ASensors s)) st
      = (inl (LaunchException (Message (sensors_mismatch_message C (number_of_sensors s)))),
         st)).
Proof.
  intros Hload Hs. split.
  - intros c Ht Hne.
    unfold launch, try_except, launch_body, dict_get.
    rewrite Hload, Ht, ts_builder_region. cbn [lift].
    rewrite bind_run. cbn [mret M_ret]. cbv iota beta.
    rewrite bind_run. cbn [mret M_ret]. cbv iota beta.
    rewrite bind_run, Hs.
    unfold create_region_ts, tuple_get. cbn [lookup list_lookup lift].
    rewrite bind_run. cbn [mret M_ret]. cbv iota beta.
    apply Z.eqb_neq in Hne. rewrite Hne. reflexivity.
  - intros s Ht Hne.
    unfold launch, try_except, launch_body, dict_get.
    rewrite Hload, Ht, ts_builder_eeg. cbn [lift].
    rewrite bind_run. cbn [mret M_ret]. cbv iota beta.
    rewrite bind_run. cbn [mret M_ret]. cbv iota beta.
    rewrite bind_run, Hs.
    unfold create_eeg_ts, tuple_get. cbn [lookup list_lookup lift].
    rewrite bind_run. cbn [mret M_ret]. cbv iota beta.
    apply Z.eqb_neq in Hne. rewrite Hne. reflexivity.
Qed.

(** C4 (amended). [launch] never lets a [ParseException] out: one raised
    while reading or slicing is logged and comes out as a
    [LaunchException] wrapping it; and a channel-count mismatch is raised
    as a [LaunchException].  Exceptions of other types are not translated:
    when the slice leaves fewer than two dimensions, the builder's look-up
    of the channel axis raises an [IndexError], which comes out of
    [launch] as it is, with the state untouched. *)
Theorem C4_only_parse_errors_translated (self : Importer)
    (data_file dataset_name structure_path : string)
    (transpose : bool) (slice : option string) (sampling_rate start_time : Z)
    (topo : option topology) (st : State) :
  (forall e st',
      launch self data_file dataset_name structure_path transpose slice
        sampling_rate start_time topo st = (inl e, st') ->
      is_ParseException e = false) /\
  (forall m,
      load_data data_file dataset_name structure_path transpose slice
      = inl (ParseException m) ->
      launch self data_file dataset_name structure_path transpose slice
        sampling_rate start_time topo st
      = (inl (LaunchException (Wrapped (ParseException m))),
         logged st (ParseException m))) /\
  (forall data T C rest,
      load_data data_file dataset_name structure_path transpose slice = inr data ->
      shape data = T :: C :: rest ->
      (tstype self = TS_REGION /\
       exists c, topo = Some (AConnectivity c) /\ number_of_regions c <> Z.of_nat C) \/
      (tstype self = TS_EEG /\
       exists s, topo = Some (ASensors s) /\ number_of_sensors s <> Z.of_nat C) ->
      exists msg,
        launch self data_file dataset_name structure_path transpose slice
          sampling_rate start_time topo st
        = (inl (LaunchException (Message msg)), st) /\
        is_LaunchException (LaunchException (Message msg)) = true) /\
  (forall data,
      load_data data_file dataset_name structure_path transpose slice = inr data ->
      ndim data < 2 ->
      (tstype self = TS_REGION /\ exists c, topo = Some (AConnectivity c)) \/
      (tstype self = TS_EEG /\ exists s, topo = Some (ASensors s)) ->
      launch self data_file dataset_name structure_path transpose slice
        sampling_rate start_time topo st
      = (inl (IndexError "tuple index out of range"), st) /\
      is_LaunchException (IndexError "tuple index out of range") = false).
Proof.
  pose proof (launch_cases self data_file dataset_name structure_path transpose slice
                sampling_rate start_time topo st) as Hcases.
  split; [|split; [|split]].
  - intros e st' Hrun.
    destruct Hcases
      as [(m & _ & Hl)|[(e0 & He0 & Hl)|(data & T & C & rest & cls & ts & mk & f0 &
                                         _ & _ & _ & Hl)]];
      rewrite Hl in Hrun.
    + by injection Hrun as <- _.
    + by injection Hrun as <- _.
    + discriminate.
  - intros m Hload. unfold launch, try_except, launch_body. rewrite Hload. reflexivity.
  - intros data T C rest Hload Hs Hkind.
    destruct (launch_mismatch self data_file dataset_name structure_path transpose slice
                sampling_rate start_time st data T C rest Hload Hs) as [Hreg Heeg].
    destruct Hkind as [(Ht & c & -> & Hne)|(Ht & s & -> & Hne)].
    + eexists. split; [by apply Hreg | reflexivity].
    + eexists. split; [by apply Heeg | reflexivity].
  - intros data Hload Hnd Hkind. split; [|reflexivity].
    assert (Hch : tuple_get (shape data) 1 = inl (IndexError "tuple index out of range")).
    { unfold ndim in Hnd. destruct (shape data) as [|a [|b r]]; cbn in Hnd; try lia;
        reflexivity. }
    unfold launch, try_except, launch_body, dict_get. rewrite Hload. cbn [lift].
    destruct Hkind as [(Ht & c & ->)|(Ht & s & ->)]; rewrite Ht.
    + rewrite ts_builder_region. cbn [lift].
      rewrite bind_run. cbn [mret M_ret]. cbv iota beta.
      rewrite bind_run. cbn [mret M_ret]. cbv iota beta.
      rewrite bind_run. unfold create_region_ts. rewrite Hch. reflexivity.
    + rewrite ts_builder_eeg. cbn [lift].
      rewrite bind_run. cbn [mret M_ret]. cbv iota beta.
      rewrite bind_run. cbn [mret M_ret]. cbv iota beta.
      rewrite bind_run. unfold create_eeg_ts. rewrite Hch. reflexivity.
Qed.

End Claims.

(** * The claims on the concrete platform *)

Lemma demo_accepts (C : nat) :
  accepts (H := demo) (MatTimeSeriesImporter "proj") (demo_connectivity (Z.of_nat C)) C
    TimeSeriesRegionH5 (TimeSeriesRegion (Collaborators := demo))
    (region_index (demo_conn (Z.of_nat C))) (region_container (demo_conn (Z.of_nat C))).
Proof. by apply accepts_region. Qed.

Lemma demo_import (sampling_rate : Z) :
  demo_launch "ts43" None sampling_rate 3
  = launch_result (H := demo) (MatTimeSeriesImporter "proj") (demo_file 4 3) 4 3 [] 0
      TimeSeriesRegionH5 (TimeSeriesRegion (Collaborators := demo))
      (region_index (demo_conn 3)) (region_container (demo_conn 3)) empty_state.
Proof.
  unfold demo_launch.
  apply (launch_run (H := demo)); [reflexivity | reflexivity | apply (demo_accepts 3)].
Qed.

Lemma C1_round_trip_shape_witness :
  load_data (H := demo) "f.mat" "ts43" EmptyString false None = inr (demo_file 4 3) /\
  shape (demo_file 4 3) = [4; 3] /\
  number_of_regions (demo_conn 3) = Z.of_nat 3 /\
  exists idx st' h5 canonical,
    demo_launch "ts43" None 100 3 = (inr idx, st') /\
    files st' !! path_for (Collaborators := demo) "proj" TimeSeriesRegionH5 (idx_gid idx)
    = Some h5 /\
    datasets h5 !! "data" = Some canonical /\
    shape canonical = [4; 1; 3; 1] /\
    data_ndim idx = Some 4.
Proof.
  split; [reflexivity|]. split; [reflexivity|]. split; [reflexivity|].
  destruct (C1_round_trip_shape (H := demo) "proj" "f.mat" "ts43" EmptyString false None
              100 0 (demo_conn 3) empty_state (demo_file 4 3) 4 3
              eq_refl eq_refl eq_refl)
    as (idx & st' & h5 & canonical & Hrun & Hfile & Hdata & Hshape & _ & _ & _ & _ & Hnd).
  exists idx, st', h5, canonical.
  split; [exact Hrun|]. split; [exact Hfile|]. by repeat split.
Defined.

Lemma C3_channel_mismatch_rejected_witness :
  load_data (H := demo) "f.mat" "ts104" EmptyString false None = inr (demo_file 10 4) /\
  shape (demo_file 10 4) = [10; 4] /\
  tstype (MatTimeSeriesImporter "proj") = TS_REGION /\
  number_of_regions (demo_conn 5) <> Z.of_nat 4 /\
  exists msg,
    demo_launch "ts104" None 100 5 = (inl (LaunchException (Message msg)), empty_state) /\
    contains "4" msg = true /\
    contains "5" msg = true.
Proof.
  split; [reflexivity|]. split; [reflexivity|]. split; [reflexivity|].
  split; [discriminate|].
  exact (proj1 (C3_channel_mismatch_rejected (H := demo) (MatTimeSeriesImporter "proj")
                  "f.mat" "ts104" EmptyString false None 100 0 empty_state
                  (demo_file 10 4) 10 4 [] eq_refl eq_refl)
           (demo_conn 5) eq_refl ltac:(discriminate)).
Defined.

Lemma C8_parse_failure_isolated_witness :
  read_nested_mat_file (Collaborators := demo) "f.mat" "nope" EmptyString
  = inl (ParseException "Could not find dataset nope") /\
  exists st',
    demo_launch "nope" None 100 3
    = (inl (LaunchException (Wrapped (ParseException "Could not find dataset nope"))), st') /\
    log st' = [ParseException "Could not find dataset nope"] /\
    files st' = ∅.
Proof.
  split; [reflexivity|].
  destruct (C8_parse_failure_isolated (H := demo) (MatTimeSeriesImporter "proj")
              "f.mat" "nope" EmptyString false None 100 0 (demo_connectivity 3)
              empty_state "Could not find dataset nope" eq_refl)
    as (st' & Hrun & _ & Hlog & Hfiles & _).
  exists st'. split; [exact Hrun|]. split; [exact Hlog | exact Hfiles].
Defined.

Lemma C10_region_index_returned_witness :
  exists idx st',
    demo_launch "ts43" None 100 3 = (inr idx, st') /\
    idx_class idx = TimeSeriesRegionIndex /\
    connectivity_gid idx = Some "conn" /\
    has_surface_mapping idx = Some true /\
    sensors_gid idx = None.
Proof.
  pose proof (demo_import 100) as Hrun. unfold launch_result in Hrun.
  do 2 eexists. split; [exact Hrun|].
  destruct (C10_region_index_returned (H := demo) _ _ _ _ _ _ _ _ _ _ _ _ Hrun)
    as (_ & c & Hc & Hcls & Hgid & Hsurf & Hsens).
  injection Hc as <-. by repeat split.
Defined.

Lemma C5_transpose_correct_witness :
  shape (demo_file 3 4) = [3; 4] /\
  shape demo_file_34_T = [4; 3] /\
  well_formed demo_file_34_T /\
  (forall i j, i < 3 -> j < 4 ->
               item demo_file_34_T [j; i] = item (demo_file 3 4) [i; j]) /\
  read_nested_mat_file (Collaborators := demo) "f.mat" "ts34" EmptyString
  = inr (demo_file 3 4) /\
  read_nested_mat_file (Collaborators := demo) "f.mat" "ts34T" EmptyString
  = inr demo_file_34_T /\
  launch (H := demo) (MatTimeSeriesImporter "proj") "f.mat" "ts34" EmptyString
    true None 100 0 (demo_connectivity 3) empty_state
  = launch (H := demo) (MatTimeSeriesImporter "proj") "f.mat" "ts34T" EmptyString
      false None 100 0 (demo_connectivity 3) empty_state.
Proof.
  assert (Hitem : forall i j, i < 3 -> j < 4 ->
                    item demo_file_34_T [j; i] = item (demo_file 3 4) [i; j]).
  { intros i j Hi Hj.
    do 3 (destruct i as [|i]; [do 4 (destruct j as [|j]; [reflexivity|]); lia|]). lia. }
  split; [reflexivity|]. split; [reflexivity|]. split; [reflexivity|].
  split; [exact Hitem|]. split; [reflexivity|]. split; [reflexivity|].
  exact (C5_transpose_correct (H := demo) (MatTimeSeriesImporter "proj")
           (demo_file 3 4) demo_file_34_T 3 4
           "f.mat" "ts34" EmptyString "f.mat" "ts34T" EmptyString
           None 100 0 (demo_connectivity 3) empty_state
           eq_refl eq_refl eq_refl Hitem eq_refl eq_refl).
Defined.

Lemma C7_time_axis_witness :
  exists idx st' path h5 time data sp T rest,
    demo_launch "ts43" None 100 3 = (inr idx, st') /\
    files st' !! path = Some h5 /\
    attrs h5 !! "gid" = Some (VStr (idx_gid idx)) /\
    datasets h5 !! "time" = Some time /\
    datasets h5 !! "data" = Some data /\
    shape data = T :: rest /\
    sample_period idx = Some sp /\
    shape time = [T] /\
    flat time = map (fun i => (inject_Z (Z.of_nat i) * sp)%Q) (seq 0 T).
Proof.
  pose proof (demo_import 100) as Hrun. unfold launch_result in Hrun.
  destruct (C7_time_axis (H := demo) _ _ _ _ _ _ _ _ _ _ _ _ Hrun)
    as (path & h5 & time & data & sp & T & rest & Hfile & Hgid & Htime & Hdata & Hs &
        _ & Hsp & Hshape & Hflat & _).
  do 2 eexists. exists path, h5, time, data, sp, T, rest. split; [exact Hrun|].
  by repeat split.
Defined.

Lemma C2_sample_period_is_the_default_witness :
  exists idx st',
    demo_launch "ts43" None 100 3 = (inr idx, st') /\
    sample_period idx = Some 1%Q /\
    ~ (1 == 1 / 100)%Q.
Proof.
  pose proof (demo_import 100) as Hrun. unfold launch_result in Hrun.
  do 2 eexists. split; [exact Hrun|].
  split; [|discriminate].
  exact (proj1 (C2_sample_period_is_the_default (H := demo) _ _ _ _ _ _ _ _ _ _ _ _ Hrun)).
Defined.

Lemma C6_slice_after_transpose_witness :
  read_nested_mat_file (Collaborators := demo) "f.mat" "ts43" EmptyString
  = inr (demo_file 4 3) /\
  number_of_regions (demo_conn 3) = 3%Z /\
  shape (demo_file 4 3) = [4; 3] /\
  exists idx st' h5 canonical,
    demo_launch "ts43" (Some "1:3,:") 100 3 = (inr idx, st') /\
    files st' !! path_for (Collaborators := demo) "proj" TimeSeriesRegionH5 (idx_gid idx)
    = Some h5 /\
    datasets h5 !! "data" = Some canonical /\
    shape canonical = [2; 1; 3; 1] /\
    data_length_1d idx = Some 2 /\
    data_length_3d idx = Some 3.
Proof.
  split; [reflexivity|]. split; [reflexivity|]. split; [reflexivity|].
  exact (proj2 (C6_slice_after_transpose (H := demo) "proj" "f.mat" "ts43" EmptyString
                  100 0 (demo_conn 3) empty_state (demo_file 4 3) eq_refl eq_refl)
           false eq_refl).
Defined.

(** C4 as stated fails on the code: with slice "0,:" a (4, 3) array becomes
    one-dimensional and [launch] ends in an [IndexError], which is not a
    [LaunchException]. *)
Lemma C4_counterexample :
  demo_launch "ts43" (Some "0,:") 100 3
  = (inl (IndexError "tuple index out of range"), empty_state) /\
  is_LaunchException (IndexError "tuple index out of range") = false.
Proof.
  split; [vm_compute; reflexivity | reflexivity].
Qed.

Lemma C4_only_parse_errors_translated_witness :
  (demo_launch "ts43" (Some "0,:") 100 3
   = (inl (IndexError "tuple index out of range"), empty_state) /\
   is_ParseException (IndexError "tuple index out of range") = false) /\
  (load_data (H := demo) "f.mat" "ts43" EmptyString false (Some "1:2:3:4")
   = inl (ParseException "invalid slice: 1:2:3:4") /\
   demo_launch "ts43" (Some "1:2:3:4") 100 3
   = (inl (LaunchException (Wrapped (ParseException "invalid slice: 1:2:3:4"))),
      logged empty_state (ParseException "invalid slice: 1:2:3:4"))) /\
  (load_data (H := demo) "f.mat" "ts104" EmptyString false None = inr (demo_file 10 4) /\
   shape (demo_file 10 4) = [10; 4] /\
   number_of_regions (demo_conn 5) <> Z.of_nat 4 /\
   exists msg,
     demo_launch "ts104" None 100 5 = (inl (LaunchException (Message msg)), empty_state)) /\
  (exists data,
      load_data (H := demo) "f.mat" "ts43" EmptyString false (Some "0,:") = inr data /\
      ndim data < 2 /\
      demo_launch "ts43" (Some "0,:") 100 3
      = (inl (IndexError "tuple index out of range"), empty_state)).
Proof.
  pose proof (fun name sl n => C4_only_parse_errors_translated (H := demo)
                (MatTimeSeriesImporter "proj") "f.mat" name EmptyString false sl
                100 0 (demo_connectivity n) empty_state) as W.
  assert (Hlow : demo_launch "ts43" (Some "0,:") 100 3
                 = (inl (IndexError "tuple index out of range"), empty_state)).
  { refine (proj1 (proj2 (proj2 (proj2 (W "ts43" (Some "0,:") 3%Z))) _ eq_refl _ _)).
    - vm_compute. lia.
    - left. split; [reflexivity|]. by eexists. }
  split; [|split; [|split]].
  - split; [exact Hlow|]. exact (proj1 (W "ts43" (Some "0,:") 3%Z) _ _ Hlow).
  - split; [reflexivity|].
    exact (proj1 (proj2 (W "ts43" (Some "1:2:3:4") 3%Z)) _ eq_refl).
  - split; [reflexivity|]. split; [reflexivity|]. split; [discriminate|].
    destruct (proj1 (proj2 (proj2 (W "ts104" None 5%Z))) (demo_file 10 4) 10 4 []
                eq_refl eq_refl) as (msg & Hrun & _).
    { left. split; [reflexivity|]. exists (demo_conn 5). split; [reflexivity|discriminate]. }
    by exists msg.
  - eexists. split; [reflexivity|]. split; [vm_compute; lia | exact Hlow].
Defined.

(** * Further properties of the importer *)

(** ** Inverting a run of [launch] *)

Section Inversion.
Context `{Collaborators}.

Lemma launch_success_inv (self : Importer) (data_file dataset_name structure_path : string)
    (transpose : bool) (slice : option string) (sampling_rate start_time : Z)
    (topo : option topology) (st st' : State) (idx : TimeSeriesIndex) :
  launch self data_file dataset_name structure_path transpose slice
    sampling_rate start_time topo st = (inr idx, st') ->
  exists data T C rest cls ts mk f0,
    load_data data_file dataset_name structure_path transpose slice = inr data /\
    shape data = T :: C :: rest /\
    accepts self topo C cls ts mk f0 /\
    idx = imported_index (mk (uuid4 (drawn st))) T C rest ts /\
    st' = put_file (drew st) (path_for (storage_path self) cls (uuid4 (drawn st)))
            (imported_container f0 data T C rest start_time ts (uuid4 (drawn st))).
Proof.
  intros Hrun.
  destruct (launch_cases self data_file dataset_name structure_path transpose slice
              sampling_rate start_time topo st)
    as [(m & _ & Hl)|[(e & _ & Hl)|(data & T & C & rest & cls & ts & mk & f0 &
                                     Hload & Hs & Hacc & Hl)]];
    rewrite Hl in Hrun; try discriminate.
  unfold launch_result in Hrun. injection Hrun as <- <-.
  rewrite (accepts_gid _ _ _ _ _ _ _ _ Hacc).
  by exists data, T, C, rest, cls, ts, mk, f0.
Qed.

Lemma accepts_container (self : Importer) (topo : option topology) (C : nat)
    cls ts mk f0 :
  accepts self topo C cls ts mk f0 ->
  h5_type f0 = cls /\ datasets f0 = ∅ /\ closed f0 = false.
Proof. by intros [c _ _ _|s _ _ _]. Qed.

End Inversion.

(** ** More about the imported container *)

Lemma imported_keeps_attr (f0 : H5File) (data : ndarray) (T C : nat) (rest : list nat)
    (start_time : Z) (ts : TimeSeries) (g : Gid) (name : string) :
  name ∉ stored_names ->
  attrs (imported_container f0 data T C rest start_time ts g) !! name = attrs f0 !! name.
Proof.
  unfold stored_names. intros Hn.
  repeat (apply not_elem_of_cons in Hn as [? Hn]).
  unfold imported_container. cbn [set_closed set_attr set_dataset attrs].
  by rewrite !lookup_insert_ne by done.
Qed.

Lemma imported_start_time (f0 : H5File) (data : ndarray) (T C : nat) (rest : list nat)
    (start_time : Z) (ts : TimeSeries) (g : Gid) :
  attrs (imported_container f0 data T C rest start_time ts g) !! "start_time"
  = Some (VFloat (inject_Z start_time)).
Proof.
  unfold imported_container. cbn [set_closed set_attr set_dataset attrs].
  rewrite !lookup_insert_ne by done. apply lookup_insert_eq.
Qed.

Lemma imported_type (f0 : H5File) (data : ndarray) (T C : nat) (rest : list nat)
    (start_time : Z) (ts : TimeSeries) (g : Gid) :
  h5_type (imported_container f0 data T C rest start_time ts g) = h5_type f0.
Proof. reflexivity. Qed.

Lemma imported_datasets (f0 : H5File) (data : ndarray) (T C : nat) (rest : list nat)
    (start_time : Z) (ts : TimeSeries) (g : Gid) (name : string) (a : ndarray) :
  datasets f0 = ∅ ->
  datasets (imported_container f0 data T C rest start_time ts g) !! name = Some a ->
  (name = "time" /\ a = ndarray_mul (r_ T) (ts_sample_period ts)) \/
  (name = "data" /\ a = view data (canonical_sels T C rest)).
Proof.
  intros He. unfold imported_container. cbn [set_closed set_attr set_dataset datasets].
  rewrite He. intros Hl.
  destruct (decide ("data" = name)) as [<-|Hd].
  - rewrite lookup_insert_eq in Hl. right. split; congruence.
  - rewrite lookup_insert_ne in Hl by done.
    destruct (decide ("time" = name)) as [<-|Ht].
    + rewrite lookup_insert_eq in Hl. left. split; congruence.
    + rewrite lookup_insert_ne in Hl by done. by rewrite lookup_empty in Hl.
Qed.

(** ** Properties of [launch], the builders and the class beyond the claims *)

Section Extras.
Context `{Collaborators}.

(** What a successful launch does to the state. *)
Lemma launch_success_state (self : Importer)
    (data_file dataset_name structure_path : string)
    (transpose : bool) (slice : option string) (sampling_rate start_time : Z)
    (topo : option topology) (st st' : State) (idx : TimeSeriesIndex) :
  launch self data_file dataset_name structure_path transpose slice
    sampling_rate start_time topo st = (inr idx, st') ->
  exists cls h5,
    files st' = <[path_for (storage_path self) cls (idx_gid idx) := h5]> (files st) /\
    (forall p, p <> path_for (storage_path self) cls (idx_gid idx) ->
               files st' !! p = files st !! p) /\
    drawn st' = S (drawn st) /\
    idx_gid idx = uuid4 (drawn st).
Proof.
  intros Hrun.
  destruct (launch_success_inv _ _ _ _ _ _ _ _ _ _ _ _ Hrun)
    as (data & T & C & rest & cls & ts & mk & f0 & _ & Hs & Hacc & -> & ->).
  pose proof (accepts_gid _ _ _ _ _ _ _ (uuid4 (drawn st)) Hacc) as Hg.
  exists cls, (imported_container f0 data T C rest start_time ts (uuid4 (drawn st))).
  cbn [imported_index idx_gid]. rewrite Hg.
  split; [reflexivity|]. split; [|by split].
  intros p Hp. unfold put_file, drew. cbn [files]. by rewrite lookup_insert_ne.
Qed.

(** X1. An importer whose [tstype] is [TS_EEG] dispatches to
    [create_eeg_ts]; each of its successful launches was given a sensors
    object and returns a [TimeSeriesEEGIndex] that carries the sensors'
    identifier and neither a connectivity identifier nor a surface-mapping
    flag. *)
Theorem X1_eeg_index_returned (storage data_file dataset_name structure_path : string)
    (transpose : bool) (slice : option string) (sampling_rate start_time : Z)
    (topo : option topology) (st st' : State) (idx : TimeSeriesIndex) :
  launch (eeg_importer storage) data_file dataset_name structure_path
    transpose slice sampling_rate start_time topo st = (inr idx, st') ->
  dict_get ts_builder (tstype (eeg_importer storage)) = inr create_eeg_ts /\
  exists s,
    topo = Some (ASensors s) /\
    idx_class idx = TimeSeriesEEGIndex /\
    sensors_gid idx = Some (sens_gid s) /\
    connectivity_gid idx = None /\
    has_surface_mapping idx = None.
Proof.
  intros Hrun. split.
  { unfold dict_get. cbn [tstype eeg_importer]. by rewrite ts_builder_eeg. }
  destruct (launch_success_inv _ _ _ _ _ _ _ _ _ _ _ _ Hrun)
    as (data & T & C & rest & cls & ts & mk & f0 & _ & _ & Hacc & -> & _).
  destruct Hacc as [c Ht -> Hn|s Ht -> Hn]; [discriminate|].
  exists s. by repeat split.
Qed.

(** X2. After a successful launch the container stored under the path of
    the returned identifier is closed, is of the H5 class that goes with
    the class of the index record, and agrees with the index record on the
    identifier, on the number of dimensions (which is the number of axes
    of the stored "data") and on the identifier of the topology. *)
Theorem X2_container_matches_index (self : Importer)
    (data_file dataset_name structure_path : string)
    (transpose : bool) (slice : option string) (sampling_rate start_time : Z)
    (topo : option topology) (st st' : State) (idx : TimeSeriesIndex) :
  launch self data_file dataset_name structure_path transpose slice
    sampling_rate start_time topo st = (inr idx, st') ->
  exists cls h5 n data,
    files st' !! path_for (storage_path self) cls (idx_gid idx) = Some h5 /\
    h5_type h5 = cls /\
    closed h5 = true /\
    attrs h5 !! "gid" = Some (VStr (idx_gid idx)) /\
    data_ndim idx = Some n /\
    attrs h5 !! "nr_dimensions" = Some (VInt (Z.of_nat n)) /\
    datasets h5 !! "data" = Some data /\
    ndim data = n /\
    ((cls = TimeSeriesRegionH5 /\ idx_class idx = TimeSeriesRegionIndex /\
      exists g, connectivity_gid idx = Some g /\
                attrs h5 !! "connectivity" = Some (VStr g)) \/
     (cls = TimeSeriesEEGH5 /\ idx_class idx = TimeSeriesEEGIndex /\
      exists g, sensors_gid idx = Some g /\
                attrs h5 !! "sensors" = Some (VStr g))).
Proof.
  intros Hrun.
  destruct (launch_success_inv _ _ _ _ _ _ _ _ _ _ _ _ Hrun)
    as (data & T & C & rest & cls & ts & mk & f0 & _ & Hs & Hacc & -> & ->).
  pose proof (accepts_gid _ _ _ _ _ _ _ (uuid4 (drawn st)) Hacc) as Hg.
  destruct (accepts_container _ _ _ _ _ _ _ Hacc) as (Hty & _ & _).
  exists cls, (imported_container f0 data T C rest start_time ts (uuid4 (drawn st))),
    (4 + length rest), (view data (canonical_sels T C rest)).
  cbn [imported_index idx_gid data_ndim idx_class connectivity_gid sensors_gid].
  rewrite Hg.
  split; [apply files_put|]. split; [by rewrite imported_type|].
  split; [reflexivity|]. split; [apply imported_gid|]. split; [reflexivity|].
  split; [apply imported_nr_dimensions|]. split; [apply imported_data|].
  split; [unfold ndim; by rewrite shape_canonical|].
  destruct Hacc as [c Ht -> Hn|s Ht -> Hn].
  - left. split; [reflexivity|]. split; [reflexivity|].
    exists (conn_gid c). split; [reflexivity|].
    rewrite imported_keeps_attr.
    + unfold region_container. cbn [set_attr attrs]. apply lookup_insert_eq.
    + unfold stored_names. intros Hin.
      repeat (apply elem_of_cons in Hin as [Hin|Hin]; [discriminate|]).
      by apply elem_of_nil in Hin.
  - right. split; [reflexivity|]. split; [reflexivity|].
    exists (sens_gid s). split; [reflexivity|].
    rewrite imported_keeps_attr.
    + unfold eeg_container. cbn [set_attr attrs]. apply lookup_insert_eq.
    + unfold stored_names. intros Hin.
      repeat (apply elem_of_cons in Hin as [Hin|Hin]; [discriminate|]).
      by apply elem_of_nil in Hin.
Qed.

(** X3. A successful launch adds or replaces exactly one container, the
    one under the path of the drawn identifier, and that container holds
    no dataset besides "time" and "data"; every other container is as
    before, nothing is logged, and exactly one identifier is drawn, the one
    on the returned index record. *)
Theorem X3_success_touches_one_container (self : Importer)
    (data_file dataset_name structure_path : string)
    (transpose : bool) (slice : option string) (sampling_rate start_time : Z)
    (topo : option topology) (st st' : State) (idx : TimeSeriesIndex) :
  launch self data_file dataset_name structure_path transpose slice
    sampling_rate start_time topo st = (inr idx, st') ->
  exists cls h5,
    files st' = <[path_for (storage_path self) cls (idx_gid idx) := h5]> (files st) /\
    (forall p, p <> path_for (storage_path self) cls (idx_gid idx) ->
               files st' !! p = files st !! p) /\
    (forall name a, datasets h5 !! name = Some a -> name = "time" \/ name = "data") /\
    log st' = log st /\
    drawn st' = S (drawn st) /\
    idx_gid idx = uuid4 (drawn st).
Proof.
  intros Hrun.
  destruct (launch_success_inv _ _ _ _ _ _ _ _ _ _ _ _ Hrun)
    as (data & T & C & rest & cls & ts & mk & f0 & _ & Hs & Hacc & -> & ->).
  pose proof (accepts_gid _ _ _ _ _ _ _ (uuid4 (drawn st)) Hacc) as Hg.
  destruct (accepts_container _ _ _ _ _ _ _ Hacc) as (_ & Hempty & _).
  exists cls, (imported_container f0 data T C rest start_time ts (uuid4 (drawn st))).
  cbn [imported_index idx_gid]. rewrite Hg.
  split; [reflexivity|]. split.
  { intros p Hp. unfold put_file, drew. cbn [files]. by rewrite lookup_insert_ne. }
  split.
  { intros name a Ha.
    destruct (imported_datasets _ _ _ _ _ _ _ _ _ _ Hempty Ha) as [[-> _]|[-> _]]; auto. }
  by repeat split.
Qed.

(** X4. A launch that the importer's own checks stop leaves every
    container as it was and draws no identifier: when reading or slicing
    fails, or the loaded array does not pass the checks of the selected
    builder (unknown tag, missing or wrong kind of topology, no channel
    axis, channel-count mismatch), [launch] fails, and the state is as
    before except that a wrapped [ParseException] is the one new log
    entry. *)
Theorem X4_rejection_leaves_storage (self : Importer)
    (data_file dataset_name structure_path : string)
    (transpose : bool) (slice : option string) (sampling_rate start_time : Z)
    (topo : option topology) (st : State) :
  (forall data,
      load_data data_file dataset_name structure_path transpose slice = inr data ->
      ~ passes_checks self topo (shape data)) ->
  exists e st',
    launch self data_file dataset_name structure_path transpose slice
      sampling_rate start_time topo st = (inl e, st') /\
    files st' = files st /\
    drawn st' = drawn st /\
    ((log st' = log st /\ is_ParseException e = false) \/
     exists m, e = LaunchException (Wrapped (ParseException m)) /\
               log st' = log st ++ [ParseException m]).
Proof.
  intros Hno.
  destruct (launch_cases self data_file dataset_name structure_path transpose slice
              sampling_rate start_time topo st)
    as [(m & _ & Hl)|[(e & He & Hl)|(data & T & C & rest & cls & ts & mk & f0 &
                                      Hload & Hs & Hacc & _)]].
  - do 2 eexists. split; [exact Hl|]. split; [reflexivity|]. split; [reflexivity|].
    right. by exists m.
  - exists e, st. split; [exact Hl|]. split; [reflexivity|]. split; [reflexivity|].
    by left.
  - exfalso. apply (Hno data Hload). exists C, cls, ts, mk, f0.
    split; [by rewrite Hs | exact Hacc].
Qed.

(** X5. An exception of the file reader that is not a [ParseException]
    leaves [launch] as it is: not wrapped, not logged, state untouched. *)
Theorem X5_other_reader_errors_propagate (self : Importer)
    (data_file dataset_name structure_path : string)
    (transpose : bool) (slice : option string) (sampling_rate start_time : Z)
    (topo : option topology) (st : State) (e : exn) :
  read_nested_mat_file data_file dataset_name structure_path = inl e ->
  is_ParseException e = false ->
  launch self data_file dataset_name structure_path transpose slice
    sampling_rate start_time topo st = (inl e, st).
Proof.
  intros Hread He. unfold launch, try_except, launch_body, load_data.
  rewrite Hread. cbn [lift]. rewrite bind_run. unfold raise. by rewrite He.
Qed.

(** X6. [ts_builder] has no entry besides [TS_REGION] and [TS_EEG]: for
    an importer with any other [tstype], once the data is loaded, [launch]
    ends in a [KeyError] for that tag, with the state untouched. *)
Theorem X6_unknown_tstype (self : Importer)
    (data_file dataset_name structure_path : string)
    (transpose : bool) (slice : option string) (sampling_rate start_time : Z)
    (topo : option topology) (st : State) (data : ndarray) :
  load_data data_file dataset_name structure_path transpose slice = inr data ->
  tstype self <> TS_REGION ->
  tstype self <> TS_EEG ->
  launch self data_file dataset_name structure_path transpose slice
    sampling_rate start_time topo st = (inl (KeyError (tstype self)), st).
Proof.
  intros Hload Hr He.
  assert (Hb : ts_builder !! tstype self = None).
  { destruct (ts_builder !! tstype self) as [b|] eqn:Hb; [|reflexivity].
    destruct (ts_builder_inv _ _ Hb) as [[? _]|[? _]]; contradiction. }
  unfold launch, try_except, launch_body, dict_get. rewrite Hload, Hb. reflexivity.
Qed.

(** X7. With the signature's own default [tstype_parameters = None], once
    the data is loaded, [launch] ends in an [AttributeError] for both
    builders, whatever the shape of the data; the state is untouched. *)
Theorem X7_default_topology_fails (self : Importer)
    (data_file dataset_name structure_path : string)
    (transpose : bool) (slice : option string) (sampling_rate start_time : Z)
    (st : State) (data : ndarray) :
  load_data data_file dataset_name structure_path transpose slice = inr data ->
  tstype self = TS_REGION \/ tstype self = TS_EEG ->
  exists m,
    launch self data_file dataset_name structure_path transpose slice
      sampling_rate start_time launch_defaults.tstype_parameters st
    = (inl (AttributeError m), st).
Proof.
  intros Hload [Ht|Ht]; eexists;
    unfold launch, try_except, launch_body, dict_get; rewrite Hload, Ht.
  - rewrite ts_builder_region. reflexivity.
  - rewrite ts_builder_eeg. reflexivity.
Qed.

(** X8. The [start_time] argument reaches the container: after a
    successful launch the stored "start_time" is the argument (as a
    float), whatever default the fresh datatype object carried. *)
Theorem X8_start_time_stored (self : Importer)
    (data_file dataset_name structure_path : string)
    (transpose : bool) (slice : option string) (sampling_rate start_time : Z)
    (topo : option topology) (st st' : State) (idx : TimeSeriesIndex) :
  launch self data_file dataset_name structure_path transpose slice
    sampling_rate start_time topo st = (inr idx, st') ->
  exists cls h5,
    files st' !! path_for (storage_path self) cls (idx_gid idx) = Some h5 /\
    attrs h5 !! "start_time" = Some (VFloat (inject_Z start_time)).
Proof.
  intros Hrun.
  destruct (launch_success_inv _ _ _ _ _ _ _ _ _ _ _ _ Hrun)
    as (data & T & C & rest & cls & ts & mk & f0 & _ & Hs & Hacc & -> & ->).
  pose proof (accepts_gid _ _ _ _ _ _ _ (uuid4 (drawn st)) Hacc) as Hg.
  exists cls, (imported_container f0 data T C rest start_time ts (uuid4 (drawn st))).
  cbn [imported_index idx_gid]. rewrite Hg.
  split; [apply files_put | apply imported_start_time].
Qed.

(** X9. An imported array with more than two axes is not rejected: only
    axis 1 is compared with the number of regions.  For shape
    (T, C, r1, ..., rk) the stored "data" has shape (T, 1, C, 1, r1, ..., rk)
    and [data_ndim], like the stored "nr_dimensions", is 4 + k. *)
Theorem X9_more_than_two_axes (storage data_file dataset_name structure_path : string)
    (transpose : bool) (slice : option string) (sampling_rate start_time : Z)
    (c : connectivity) (st : State) (data : ndarray) (T C : nat) (rest : list nat) :
  load_data data_file dataset_name structure_path transpose slice = inr data ->
  shape data = T :: C :: rest ->
  number_of_regions c = Z.of_nat C ->
  exists idx st' h5 canonical,
    launch (MatTimeSeriesImporter storage) data_file dataset_name structure_path
      transpose slice sampling_rate start_time (Some (AConnectivity c)) st
    = (inr idx, st') /\
    files st' !! path_for storage TimeSeriesRegionH5 (idx_gid idx) = Some h5 /\
    datasets h5 !! "data" = Some canonical /\
    shape canonical = T :: 1 :: C :: 1 :: rest /\
    data_ndim idx = Some (4 + length rest) /\
    attrs h5 !! "nr_dimensions" = Some (VInt (Z.of_nat (4 + length rest))).
Proof.
  intros Hload Hs Hn.
  assert (Hacc : accepts (MatTimeSeriesImporter storage) (Some (AConnectivity c)) C
                   TimeSeriesRegionH5 TimeSeriesRegion (region_index c)
                   (region_container c)) by (by apply accepts_region).
  rewrite (launch_run _ _ _ _ _ _ sampling_rate start_time _ st data T C rest
             _ _ _ _ Hload Hs Hacc).
  unfold launch_result. do 4 eexists. split; [reflexivity|].
  cbn [imported_index idx_gid region_index storage_path MatTimeSeriesImporter data_ndim].
  split; [apply files_put|]. split; [apply imported_data|].
  split; [apply shape_canonical|]. split; [reflexivity|].
  apply imported_nr_dimensions.
Qed.

(** X10. Inserting the two axes does not move data: when the imported
    array is well-formed (as many elements as its shape says), the stored
    "data" is well-formed and has the same elements in the same row-major
    order. *)
Theorem X10_elements_kept_in_order (self : Importer)
    (data_file dataset_name structure_path : string)
    (transpose : bool) (slice : option string) (sampling_rate start_time : Z)
    (topo : option topology) (st st' : State) (idx : TimeSeriesIndex) (data : ndarray) :
  load_data data_file dataset_name structure_path transpose slice = inr data ->
  well_formed data ->
  launch self data_file dataset_name structure_path transpose slice
    sampling_rate start_time topo st = (inr idx, st') ->
  exists cls h5 canonical,
    files st' !! path_for (storage_path self) cls (idx_gid idx) = Some h5 /\
    datasets h5 !! "data" = Some canonical /\
    well_formed canonical /\
    flat canonical = flat data.
Proof.
  intros Hload Hwf Hrun.
  destruct (launch_success_inv _ _ _ _ _ _ _ _ _ _ _ _ Hrun)
    as (data' & T & C & rest & cls & ts & mk & f0 & Hload' & Hs & Hacc & -> & ->).
  rewrite Hload in Hload'. injection Hload' as <-.
  pose proof (accepts_gid _ _ _ _ _ _ _ (uuid4 (drawn st)) Hacc) as Hg.
  exists cls, (imported_container f0 data T C rest start_time ts (uuid4 (drawn st))),
    (view data (canonical_sels T C rest)).
  cbn [imported_index idx_gid]. rewrite Hg.
  split; [apply files_put|]. split; [apply imported_data|].
  split; [apply well_formed_view | by apply flat_canonical].
Qed.

(** X12. The defaults declared by [MatTimeSeriesImporterModel] and the
    defaults in the signature of [launch] differ in [slice] (empty string
    against [None]) and in [sampling_rate] (100 against 1000), and give the
    same import all the same. *)
Theorem X12_model_and_signature_defaults_agree (self : Importer)
    (data_file dataset_name : string) (topo : option topology) (st : State)
    (path : string) (tr : bool) (sl : string) (rate t0 : Z) :
  attr_default MatTimeSeriesImporterModel.structure_path = Some path ->
  attr_default MatTimeSeriesImporterModel.transpose = Some tr ->
  attr_default MatTimeSeriesImporterModel.slice = Some sl ->
  attr_default MatTimeSeriesImporterModel.sampling_rate = Some rate ->
  attr_default MatTimeSeriesImporterModel.start_time = Some t0 ->
  Some sl <> launch_defaults.slice /\
  rate <> launch_defaults.sampling_rate /\
  launch self data_file dataset_name path tr (Some sl) rate t0 topo st
  = launch self data_file dataset_name launch_defaults.structure_path
      launch_defaults.transpose launch_defaults.slice launch_defaults.sampling_rate
      launch_defaults.start_time topo st.
Proof.
  intros [= <-] [= <-] [= <-] [= <-] [= <-].
  split; [discriminate|]. split; [discriminate|]. reflexivity.
Qed.

(** X13. Two imports in a row: the second draws the next identifier, and
    when its container path differs from the first one's, the first
    container is still there, unchanged, after the second import. *)
Theorem X13_second_import_keeps_first (self1 self2 : Importer)
    (file1 name1 path1 file2 name2 path2 : string)
    (tr1 tr2 : bool) (slice1 slice2 : option string) (rate1 rate2 t1 t2 : Z)
    (topo1 topo2 : option topology) (st st1 st2 : State) (idx1 idx2 : TimeSeriesIndex) :
  launch self1 file1 name1 path1 tr1 slice1 rate1 t1 topo1 st = (inr idx1, st1) ->
  launch self2 file2 name2 path2 tr2 slice2 rate2 t2 topo2 st1 = (inr idx2, st2) ->
  idx_gid idx1 = uuid4 (drawn st) /\
  idx_gid idx2 = uuid4 (S (drawn st)) /\
  drawn st2 = S (S (drawn st)) /\
  exists cls1 cls2 h1 h2,
    files st1 !! path_for (storage_path self1) cls1 (idx_gid idx1) = Some h1 /\
    files st2 !! path_for (storage_path self2) cls2 (idx_gid idx2) = Some h2 /\
    (path_for (storage_path self1) cls1 (idx_gid idx1)
     <> path_for (storage_path self2) cls2 (idx_gid idx2) ->
     files st2 !! path_for (storage_path self1) cls1 (idx_gid idx1) = Some h1).
Proof.
  intros Hrun1 Hrun2.
  destruct (launch_success_state _ _ _ _ _ _ _ _ _ _ _ _ Hrun1)
    as (cls1 & h1 & Hf1 & _ & Hd1 & Hg1).
  destruct (launch_success_state _ _ _ _ _ _ _ _ _ _ _ _ Hrun2)
    as (cls2 & h2 & Hf2 & Hother & Hd2 & Hg2).
  rewrite Hd1 in Hd2, Hg2.
  split; [exact Hg1|]. split; [exact Hg2|]. split; [exact Hd2|].
  exists cls1, cls2, h1, h2.
  split; [rewrite Hf1; apply lookup_insert_eq|].
  split; [rewrite Hf2; apply lookup_insert_eq|].
  intros Hne. rewrite Hother by exact Hne. rewrite Hf1. apply lookup_insert_eq.
Qed.

(** X14. Transposing is undone by transposing: importing a file that
    holds [A.T] with [transpose = true] gives the same result and state as
    importing a file that holds a well-formed [A] with
    [transpose = false]. *)
Theorem X14_transpose_round_trip (self : Importer) (A : ndarray)
    (file1 name1 path1 file2 name2 path2 : string)
    (slice : option string) (sampling_rate start_time : Z)
    (topo : option topology) (st : State) :
  well_formed A ->
  read_nested_mat_file file1 name1 path1 = inr A ->
  read_nested_mat_file file2 name2 path2 = inr (ndarray_T A) ->
  launch self file2 name2 path2 true slice sampling_rate start_time topo st
  = launch self file1 name1 path1 false slice sampling_rate start_time topo st.
Proof.
  intros Hwf H1 H2. unfold launch, launch_body, load_data.
  by rewrite H1, H2, T_involutive.
Qed.

(** X15. The metadata on the returned index record mirrors what the
    container stores: title, sample rate, sample period and its unit are
    the stored ones, and the two label fields are the JSON text of the
    stored label values. *)
Theorem X15_index_mirrors_container (self : Importer)
    (data_file dataset_name structure_path : string)
    (transpose : bool) (slice : option string) (sampling_rate start_time : Z)
    (topo : option topology) (st st' : State) (idx : TimeSeriesIndex) :
  launch self data_file dataset_name structure_path transpose slice
    sampling_rate start_time topo st = (inr idx, st') ->
  exists cls h5 ordering dimensions period unit,
    files st' !! path_for (storage_path self) cls (idx_gid idx) = Some h5 /\
    attrs h5 !! "title" = Some (of_option VStr (title idx)) /\
    attrs h5 !! "sample_rate" = Some (of_option VFloat (sample_rate idx)) /\
    attrs h5 !! "sample_period" = Some (VFloat period) /\
    sample_period idx = Some period /\
    attrs h5 !! "sample_period_unit" = Some (VStr unit) /\
    sample_period_unit idx = Some unit /\
    attrs h5 !! "labels_ordering" = Some (VStrings ordering) /\
    labels_ordering idx = Some (json_dumps (VStrings ordering)) /\
    attrs h5 !! "labels_dimensions" = Some (VLabels dimensions) /\
    labels_dimensions idx = Some (json_dumps (VLabels dimensions)).
Proof.
  intros Hrun.
  destruct (launch_success_inv _ _ _ _ _ _ _ _ _ _ _ _ Hrun)
    as (data & T & C & rest & cls & ts & mk & f0 & _ & Hs & Hacc & -> & ->).
  pose proof (accepts_gid _ _ _ _ _ _ _ (uuid4 (drawn st)) Hacc) as Hg.
  exists cls, (imported_container f0 data T C rest start_time ts (uuid4 (drawn st))),
    (ts_labels_ordering ts), (ts_labels_dimensions ts), (ts_sample_period ts), "s".
  cbn [imported_index idx_gid title sample_rate sample_period sample_period_unit
       labels_ordering labels_dimensions].
  rewrite Hg. split; [apply files_put|].
  unfold imported_container. cbn [set_closed set_attr set_dataset attrs].
  repeat split; try reflexivity;
    (rewrite ?lookup_insert_ne by done; apply lookup_insert_eq).
Qed.

End Extras.

(** ** The further properties on the concrete platform *)

Lemma demo_import_from (st : State) (sampling_rate : Z) :
  launch (H := demo) (MatTimeSeriesImporter "proj") "f.mat" "ts43" EmptyString
    false None sampling_rate 0 (demo_connectivity 3) st
  = launch_result (H := demo) (MatTimeSeriesImporter "proj") (demo_file 4 3) 4 3 [] 0
      TimeSeriesRegionH5 (TimeSeriesRegion (Collaborators := demo))
      (region_index (demo_conn 3)) (region_container (demo_conn 3)) st.
Proof.
  apply (launch_run (H := demo)); [reflexivity | reflexivity | apply (demo_accepts 3)].
Qed.

Lemma demo_eeg_import :
  demo_eeg_launch "ts43" None 3
  = launch_result (H := demo) (eeg_importer "proj") (demo_file 4 3) 4 3 [] 0
      TimeSeriesEEGH5 (TimeSeriesEEG (Collaborators := demo))
      (eeg_index (demo_sens 3)) (eeg_container (demo_sens 3)) empty_state.
Proof.
  unfold demo_eeg_launch.
  apply (launch_run (H := demo)); [reflexivity | reflexivity |].
  by apply accepts_eeg.
Qed.

Lemma X1_eeg_index_returned_witness :
  exists idx st',
    demo_eeg_launch "ts43" None 3 = (inr idx, st') /\
    idx_class idx = TimeSeriesEEGIndex /\
    sensors_gid idx = Some "sens" /\
    connectivity_gid idx = None /\
    has_surface_mapping idx = None.
Proof.
  pose proof demo_eeg_import as Hrun. unfold launch_result in Hrun.
  do 2 eexists. split; [exact Hrun|].
  destruct (X1_eeg_index_returned (H := demo) _ _ _ _ _ _ _ _ _ _ _ _ Hrun)
    as (_ & s & Hs & Hcls & Hgid & Hconn & Hsurf).
  injection Hs as <-. by repeat split.
Defined.

Lemma X2_container_matches_index_witness :
  exists idx st' cls h5 n,
    demo_launch "ts43" None 100 3 = (inr idx, st') /\
    files st' !! path_for (Collaborators := demo) "proj" cls (idx_gid idx) = Some h5 /\
    h5_type h5 = cls /\
    closed h5 = true /\
    attrs h5 !! "gid" = Some (VStr (idx_gid idx)) /\
    data_ndim idx = Some n /\
    attrs h5 !! "nr_dimensions" = Some (VInt (Z.of_nat n)).
Proof.
  pose proof (demo_import 100) as Hrun. unfold launch_result in Hrun.
  destruct (X2_container_matches_index (H := demo) _ _ _ _ _ _ _ _ _ _ _ _ Hrun)
    as (cls & h5 & n & data & Hfile & Hty & Hcl & Hgid & Hnd & Hnr & _).
  do 2 eexists. exists cls, h5, n. split; [exact Hrun|]. by repeat split.
Defined.

Lemma X3_success_touches_one_container_witness :
  exists idx st' cls h5,
    demo_launch "ts43" None 100 3 = (inr idx, st') /\
    files st' = <[path_for (Collaborators := demo) "proj" cls (idx_gid idx) := h5]> ∅ /\
    log st' = [] /\
    drawn st' = 1 /\
    idx_gid idx = "gid0".
Proof.
  pose proof (demo_import 100) as Hrun. unfold launch_result in Hrun.
  destruct (X3_success_touches_one_container (H := demo) _ _ _ _ _ _ _ _ _ _ _ _ Hrun)
    as (cls & h5 & Hfiles & _ & _ & Hlog & Hdrawn & Hgid).
  do 2 eexists. exists cls, h5. split; [exact Hrun|]. by repeat split.
Defined.

Lemma X4_rejection_leaves_storage_witness :
  (forall data,
      load_data (H := demo) "f.mat" "ts104" EmptyString false None = inr data ->
      ~ passes_checks (H := demo) (MatTimeSeriesImporter "proj") (demo_connectivity 5)
          (shape data)) /\
  exists e st',
    demo_launch "ts104" None 100 5 = (inl e, st') /\
    files st' = ∅ /\
    drawn st' = 0.
Proof.
  assert (Hno : forall data,
             load_data (H := demo) "f.mat" "ts104" EmptyString false None = inr data ->
             ~ passes_checks (H := demo) (MatTimeSeriesImporter "proj")
                 (demo_connectivity 5) (shape data)).
  { intros data Hload (C & cls & ts & mk & f0 & HC & Hacc).
    injection Hload as <-. injection HC as <-.
    destruct Hacc as [c _ Hc Hn|s Ht _ _]; [|discriminate].
    injection Hc as <-. discriminate. }
  split; [exact Hno|].
  destruct (X4_rejection_leaves_storage (H := demo) (MatTimeSeriesImporter "proj")
              "f.mat" "ts104" EmptyString false None 100 0 (demo_connectivity 5)
              empty_state Hno) as (e & st' & Hrun & Hfiles & Hdrawn & _).
  exists e, st'. by repeat split.
Defined.

Lemma X5_other_reader_errors_propagate_witness :
  read_nested_mat_file (Collaborators := demo_unreadable) "f.mat" "ts" EmptyString
  = inl (ValueError "Unknown mat file type") /\
  is_ParseException (ValueError "Unknown mat file type") = false /\
  launch (H := demo_unreadable) (MatTimeSeriesImporter "proj") "f.mat" "ts" EmptyString
    false None 100 0 (demo_connectivity 3) empty_state
  = (inl (ValueError "Unknown mat file type"), empty_state).
Proof.
  split; [reflexivity|]. split; [reflexivity|].
  exact (X5_other_reader_errors_propagate (H := demo_unreadable)
           (MatTimeSeriesImporter "proj") "f.mat" "ts" EmptyString false None 100 0
           (demo_connectivity 3) empty_state _ eq_refl eq_refl).
Defined.

Lemma X6_unknown_tstype_witness :
  load_data (H := demo) "f.mat" "ts43" EmptyString false None = inr (demo_file 4 3) /\
  tstype (meg_importer "proj") <> TS_REGION /\
  tstype (meg_importer "proj") <> TS_EEG /\
  launch (H := demo) (meg_importer "proj") "f.mat" "ts43" EmptyString
    false None 100 0 (demo_connectivity 3) empty_state
  = (inl (KeyError "MEG"), empty_state).
Proof.
  split; [reflexivity|]. split; [discriminate|]. split; [discriminate|].
  exact (X6_unknown_tstype (H := demo) (meg_importer "proj") "f.mat" "ts43" EmptyString
           false None 100 0 (demo_connectivity 3) empty_state (demo_file 4 3)
           eq_refl ltac:(discriminate) ltac:(discriminate)).
Defined.

Lemma X7_default_topology_fails_witness :
  load_data (H := demo) "f.mat" "ts43" EmptyString false None = inr (demo_file 4 3) /\
  tstype (MatTimeSeriesImporter "proj") = TS_REGION /\
  exists m,
    launch (H := demo) (MatTimeSeriesImporter "proj") "f.mat" "ts43" EmptyString
      false None 100 0 None empty_state
    = (inl (AttributeError m), empty_state).
Proof.
  split; [reflexivity|]. split; [reflexivity|].
  exact (X7_default_topology_fails (H := demo) (MatTimeSeriesImporter "proj")
           "f.mat" "ts43" EmptyString false None 100 0 empty_state (demo_file 4 3)
           eq_refl (or_introl eq_refl)).
Defined.

Lemma X8_start_time_stored_witness :
  exists idx st' cls h5,
    launch (H := demo) (MatTimeSeriesImporter "proj") "f.mat" "ts43" EmptyString
      false None 100 250 (demo_connectivity 3) empty_state = (inr idx, st') /\
    files st' !! path_for (Collaborators := demo) "proj" cls (idx_gid idx) = Some h5 /\
    attrs h5 !! "start_time" = Some (VFloat (inject_Z 250)).
Proof.
  assert (Hrun : launch (H := demo) (MatTimeSeriesImporter "proj") "f.mat" "ts43"
                   EmptyString false None 100 250 (demo_connectivity 3) empty_state
                 = launch_result (H := demo) (MatTimeSeriesImporter "proj")
                     (demo_file 4 3) 4 3 [] 250 TimeSeriesRegionH5
                     (TimeSeriesRegion (Collaborators := demo))
                     (region_index (demo_conn 3)) (region_container (demo_conn 3))
                     empty_state).
  { apply (launch_run (H := demo)); [reflexivity | reflexivity | apply (demo_accepts 3)]. }
  unfold launch_result in Hrun.
  destruct (X8_start_time_stored (H := demo) _ _ _ _ _ _ _ _ _ _ _ _ Hrun)
    as (cls & h5 & Hfile & Hst).
  do 2 eexists. exists cls, h5. split; [exact Hrun|]. by split.
Defined.

Lemma X9_more_than_two_axes_witness :
  load_data (H := demo_nd) "f.mat" "cube" EmptyString false None = inr demo_cube /\
  shape demo_cube = [2; 3; 2] /\
  number_of_regions (demo_conn 3) = Z.of_nat 3 /\
  exists idx st' h5 canonical,
    launch (H := demo_nd) (MatTimeSeriesImporter "proj") "f.mat" "cube" EmptyString
      false None 100 0 (Some (AConnectivity (demo_conn 3))) empty_state
    = (inr idx, st') /\
    files st' !! path_for (Collaborators := demo_nd) "proj" TimeSeriesRegionH5 (idx_gid idx)
    = Some h5 /\
    datasets h5 !! "data" = Some canonical /\
    shape canonical = [2; 1; 3; 1; 2] /\
    data_ndim idx = Some 5 /\
    attrs h5 !! "nr_dimensions" = Some (VInt 5).
Proof.
  split; [reflexivity|]. split; [reflexivity|]. split; [reflexivity|].
  exact (X9_more_than_two_axes (H := demo_nd) "proj" "f.mat" "cube" EmptyString false None
           100 0 (demo_conn 3) empty_state demo_cube 2 3 [2] eq_refl eq_refl eq_refl).
Defined.

Lemma X10_elements_kept_in_order_witness :
  load_data (H := demo) "f.mat" "ts43" EmptyString false None = inr (demo_file 4 3) /\
  well_formed (demo_file 4 3) /\
  exists idx st' cls h5 canonical,
    demo_launch "ts43" None 100 3 = (inr idx, st') /\
    files st' !! path_for (Collaborators := demo) "proj" cls (idx_gid idx) = Some h5 /\
    datasets h5 !! "data" = Some canonical /\
    flat canonical = flat (demo_file 4 3).
Proof.
  split; [reflexivity|]. split; [reflexivity|].
  pose proof (demo_import 100) as Hrun. unfold launch_result in Hrun.
  destruct (X10_elements_kept_in_order (H := demo) (MatTimeSeriesImporter "proj")
              "f.mat" "ts43" EmptyString false None 100 0 (demo_connectivity 3)
              empty_state _ _ (demo_file 4 3) eq_refl eq_refl Hrun)
    as (cls & h5 & canonical & Hfile & Hdata & _ & Hflat).
  do 2 eexists. exists cls, h5, canonical. split; [exact Hrun|]. by repeat split.
Defined.

Lemma X12_model_and_signature_defaults_agree_witness :
  attr_default MatTimeSeriesImporterModel.slice = Some EmptyString /\
  attr_default MatTimeSeriesImporterModel.sampling_rate = Some 100%Z /\
  launch (H := demo) (MatTimeSeriesImporter "proj") "f.mat" "ts43" EmptyString
    false (Some EmptyString) 100 0 (demo_connectivity 3) empty_state
  = launch (H := demo) (MatTimeSeriesImporter "proj") "f.mat" "ts43" EmptyString
      false None 1000 0 (demo_connectivity 3) empty_state.
Proof.
  split; [reflexivity|]. split; [reflexivity|].
  exact (proj2 (proj2 (X12_model_and_signature_defaults_agree (H := demo)
                         (MatTimeSeriesImporter "proj") "f.mat" "ts43"
                         (demo_connectivity 3) empty_state
                         EmptyString false EmptyString 100 0
                         eq_refl eq_refl eq_refl eq_refl eq_refl))).
Defined.

Lemma X13_second_import_keeps_first_witness :
  exists idx1 st1 idx2 st2,
    launch (H := demo) (MatTimeSeriesImporter "proj") "f.mat" "ts43" EmptyString
      false None 100 0 (demo_connectivity 3) empty_state = (inr idx1, st1) /\
    launch (H := demo) (MatTimeSeriesImporter "proj") "f.mat" "ts43" EmptyString
      false None 100 0 (demo_connectivity 3) st1 = (inr idx2, st2) /\
    idx_gid idx1 = "gid0" /\
    idx_gid idx2 = "gid1" /\
    drawn st2 = 2.
Proof.
  pose proof (demo_import_from empty_state 100) as Hrun1.
  unfold launch_result in Hrun1.
  pose proof (demo_import_from
                (put_file (drew empty_state)
                   (path_for (Collaborators := demo)
                      (storage_path (MatTimeSeriesImporter "proj")) TimeSeriesRegionH5
                      (uuid4 (Collaborators := demo) (drawn empty_state)))
                   (imported_container (region_container (demo_conn 3)) (demo_file 4 3)
                      4 3 [] 0 (TimeSeriesRegion (Collaborators := demo))
                      (idx_gid (region_index (demo_conn 3)
                                  (uuid4 (Collaborators := demo) (drawn empty_state))))))
                100) as Hrun2.
  unfold launch_result in Hrun2.
  destruct (X13_second_import_keeps_first (H := demo) _ _ _ _ _ _ _ _ _ _ _ _ _ _ _ _
              _ _ _ _ _ _ _ Hrun1 Hrun2) as (Hg1 & Hg2 & Hd & _).
  do 4 eexists. split; [exact Hrun1|]. split; [exact Hrun2|]. by repeat split.
Defined.

Lemma X14_transpose_round_trip_witness :
  well_formed (demo_file 3 4) /\
  read_nested_mat_file (Collaborators := demo) "f.mat" "ts34" EmptyString
  = inr (demo_file 3 4) /\
  read_nested_mat_file (Collaborators := demo) "f.mat" "ts34T" EmptyString
  = inr (ndarray_T (demo_file 3 4)) /\
  launch (H := demo) (MatTimeSeriesImporter "proj") "f.mat" "ts34T" EmptyString
    true None 100 0 (demo_connectivity 4) empty_state
  = launch (H := demo) (MatTimeSeriesImporter "proj") "f.mat" "ts34" EmptyString
      false None 100 0 (demo_connectivity 4) empty_state.
Proof.
  split; [reflexivity|]. split; [reflexivity|]. split; [reflexivity|].
  exact (X14_transpose_round_trip (H := demo) (MatTimeSeriesImporter "proj")
           (demo_file 3 4) "f.mat" "ts34" EmptyString "f.mat" "ts34T" EmptyString
           None 100 0 (demo_connectivity 4) empty_state eq_refl eq_refl eq_refl).
Defined.

Lemma X15_index_mirrors_container_witness :
  exists idx st' cls h5 ordering,
    demo_launch "ts43" None 100 3 = (inr idx, st') /\
    files st' !! path_for (Collaborators := demo) "proj" cls (idx_gid idx) = Some h5 /\
    attrs h5 !! "labels_ordering" = Some (VStrings ordering) /\
    labels_ordering idx = Some (json_dumps (Collaborators := demo) (VStrings ordering)).
Proof.
  pose proof (demo_import 100) as Hrun. unfold launch_result in Hrun.
  destruct (X15_index_mirrors_container (H := demo) _ _ _ _ _ _ _ _ _ _ _ _ Hrun)
    as (cls & h5 & ordering & dimensions & period & unit & Hfile & _ & _ & _ & _ & _ & _ &
        Hlo & Hidx & _).
  do 2 eexists. exists cls, h5, ordering. split; [exact Hrun|]. by repeat split.
Defined.
